(** * pkg/connection/conn.go: the connection manager of kaf

    A shallow embedding of [conn.go] and the verification of its
    specification.  The Go packages the file imports appear as modules
    ([tls], [config], [sarama]); what those packages do at run time (reading
    files, parsing versions, dialling brokers) is a record of operations,
    [Externals], over an abstract state of the outside world. *)

From Stdlib Require Import ZArith Ascii String.
From stdpp Require Import base option list strings gmap.

Local Open Scope string_scope.
Local Open Scope list_scope.

(** ** Go values *)

(** [[]byte] *)
Abbreviation bytes := (list Byte.byte).

(** A Go [error].  [LibError] is an error value made outside this file (by
    the operating system, by sarama, by the configuration loader);
    [Errorf] is one made here by [fmt.Errorf].  [Error] is the method
    [Error() string], which is also what the verb [%v] prints. *)
Inductive error : Type :=
| LibError (msg : string)
| Errorf (msg : string).

Definition Error (e : error) : string :=
  match e with
  | LibError msg => msg
  | Errorf msg => msg
  end.

(** The pair [(value, error)] returned by a library call. *)
Inductive result (A : Type) : Type :=
| Success (a : A)
| Failure (err : error).
Arguments Success {A} a.
Arguments Failure {A} err.

(** What a call of a function of this file does: it returns [(a, nil)],
    it returns [(nil, err)], or it panics on a nil pointer. *)
Inductive outcome (A : Type) : Type :=
| Ok (a : A)
| Err (err : error)
| Panic.
Arguments Ok {A} a.
Arguments Err {A} err.
Arguments Panic {A}.

#[global] Instance outcome_ret : MRet outcome := fun A a => Ok a.
#[global] Instance outcome_bind : MBind outcome := fun A B k m =>
  match m with
  | Ok a => k a
  | Err err => Err err
  | Panic => Panic
  end.

(** [p.f] on a pointer [p]: a nil pointer panics. *)
Definition deref {A : Type} (p : option A) : outcome A :=
  match p with
  | Some a => Ok a
  | None => Panic
  end.

(** The test that a string is not the empty string. *)
Definition nonempty (s : string) : bool := negb (String.eqb s EmptyString).

(** The double quote character, as an escaped quote in a format string. *)
Definition dquote : string := String (ascii_of_nat 34) EmptyString.

(** ** crypto/tls and crypto/x509 *)
Module tls.

(** [x509.CertPool]: the PEM blocks appended to it, in order. *)
Definition CertPool : Type := list bytes.
Definition NewCertPool : CertPool := [].
Definition AppendCertsFromPEM (pool : CertPool) (pem : bytes) : CertPool :=
  pool ++ [pem].

Record Certificate : Type := mkCertificate {
  Certificate_chain : list bytes;
  PrivateKey : bytes
}.

(** The fields of [tls.Config] that conn.go sets. *)
Record Config : Type := mkConfig {
  InsecureSkipVerify : bool;
  RootCAs : option CertPool;
  Certificates : list Certificate
}.

Definition set_RootCAs (p : CertPool) (c : Config) : Config :=
  mkConfig (InsecureSkipVerify c) (Some p) (Certificates c).
Definition set_Certificates (l : list Certificate) (c : Config) : Config :=
  mkConfig (InsecureSkipVerify c) (RootCAs c) l.

End tls.

(** ** github.com/birdayz/kaf/pkg/config *)
Module config.

(** Modelled from the spec: the SASL section of a cluster record
    (package config is not among the sources): "SASL
    credentials/mechanism"; the fields are the ones conn.go reads. *)
Record SASL : Type := mkSASL {
  Mechanism : string;
  Username : string;
  Password : string
}.

(** Modelled from the spec: the TLS section of a cluster record
    (package config is not among the sources): "TLS material"; the
    fields are the ones conn.go reads. *)
Record TLS : Type := mkTLS {
  Cafile : string;
  Clientfile : string;
  Clientkeyfile : string;
  Insecure : bool
}.

(** Modelled from the spec: the cluster record (package config is not
    among the sources): "cluster name, broker list, TLS material, SASL
    credentials/mechanism, protocol version string".  [SASL] and [TLS]
    are pointers in Go, hence options. *)
Record Cluster : Type := mkCluster {
  Name : string;
  Version : string;
  Brokers : list string;
  SASL_ : option SASL;
  TLS_ : option TLS;
  SecurityProtocol : string
}.

(** Modelled from the spec: the loaded configuration (package config is
    not among the sources); [CurrentCluster] is what its method
    [ActiveCluster] goes by. *)
Record Config : Type := mkConfig {
  CurrentCluster : string;
  Clusters : list Cluster
}.

End config.

(** ** github.com/Shopify/sarama *)
Module sarama.

(** [KafkaVersion] is [struct{ version [4]uint }]. *)
Definition KafkaVersion : Type := (N * N * N * N)%type.
Definition V1_1_0_0 : KafkaVersion := (1, 1, 0, 0)%N.

(** [SASLMechanism] is a string type. *)
Definition SASLMechanism : Type := string.
Definition SASLTypeSCRAMSHA256 : SASLMechanism := "SCRAM-SHA-256".
Definition SASLTypeSCRAMSHA512 : SASLMechanism := "SCRAM-SHA-512".

(** The hash generator handed to [XDGSCRAMClient] by the closure stored
    in [SCRAMClientGeneratorFunc]. *)
Inductive HashGeneratorFcn : Type := SHA256 | SHA512.

(** [Config.Net.SASL] *)
Record NetSASL : Type := mkNetSASL {
  SASL_Enable : bool;
  SASL_Mechanism : SASLMechanism;
  SASL_User : string;
  SASL_Password : string;
  SASL_SCRAMClientGeneratorFunc : option HashGeneratorFcn
}.

(** [Config.Net.TLS] *)
Record NetTLS : Type := mkNetTLS {
  TLS_Enable : bool;
  TLS_Config : option tls.Config
}.

(** The fields of [sarama.Config] that conn.go sets;
    [Metadata_RefreshFrequency] is a [time.Duration], in nanoseconds. *)
Record Config : Type := mkConfig {
  Version : KafkaVersion;
  Producer_Return_Successes : bool;
  Metadata_Full : bool;
  Metadata_RefreshFrequency : Z;
  Net_SASL : NetSASL;
  Net_TLS : NetTLS
}.

Definition set_Version (v : KafkaVersion) (c : Config) : Config :=
  mkConfig v (Producer_Return_Successes c) (Metadata_Full c)
    (Metadata_RefreshFrequency c) (Net_SASL c) (Net_TLS c).
Definition set_Producer_Return_Successes (b : bool) (c : Config) : Config :=
  mkConfig (Version c) b (Metadata_Full c)
    (Metadata_RefreshFrequency c) (Net_SASL c) (Net_TLS c).
Definition set_Metadata_Full (b : bool) (c : Config) : Config :=
  mkConfig (Version c) (Producer_Return_Successes c) b
    (Metadata_RefreshFrequency c) (Net_SASL c) (Net_TLS c).
Definition set_Metadata_RefreshFrequency (d : Z) (c : Config) : Config :=
  mkConfig (Version c) (Producer_Return_Successes c) (Metadata_Full c)
    d (Net_SASL c) (Net_TLS c).
Definition set_Net_SASL (f : NetSASL -> NetSASL) (c : Config) : Config :=
  mkConfig (Version c) (Producer_Return_Successes c) (Metadata_Full c)
    (Metadata_RefreshFrequency c) (f (Net_SASL c)) (Net_TLS c).
Definition set_Net_TLS (f : NetTLS -> NetTLS) (c : Config) : Config :=
  mkConfig (Version c) (Producer_Return_Successes c) (Metadata_Full c)
    (Metadata_RefreshFrequency c) (Net_SASL c) (f (Net_TLS c)).

Definition set_SASL_Enable (b : bool) : Config -> Config :=
  set_Net_SASL (fun s => mkNetSASL b (SASL_Mechanism s) (SASL_User s)
    (SASL_Password s) (SASL_SCRAMClientGeneratorFunc s)).
Definition set_SASL_User (u : string) : Config -> Config :=
  set_Net_SASL (fun s => mkNetSASL (SASL_Enable s) (SASL_Mechanism s) u
    (SASL_Password s) (SASL_SCRAMClientGeneratorFunc s)).
Definition set_SASL_Password (p : string) : Config -> Config :=
  set_Net_SASL (fun s => mkNetSASL (SASL_Enable s) (SASL_Mechanism s)
    (SASL_User s) p (SASL_SCRAMClientGeneratorFunc s)).
Definition set_SASL_Mechanism (m : SASLMechanism) : Config -> Config :=
  set_Net_SASL (fun s => mkNetSASL (SASL_Enable s) m (SASL_User s)
    (SASL_Password s) (SASL_SCRAMClientGeneratorFunc s)).
Definition set_SASL_SCRAMClientGeneratorFunc (h : HashGeneratorFcn)
  : Config -> Config :=
  set_Net_SASL (fun s => mkNetSASL (SASL_Enable s) (SASL_Mechanism s)
    (SASL_User s) (SASL_Password s) (Some h)).
Definition set_TLS_Enable (b : bool) : Config -> Config :=
  set_Net_TLS (fun t => mkNetTLS b (TLS_Config t)).
Definition set_TLS_Config (tc : tls.Config) : Config -> Config :=
  set_Net_TLS (fun t => mkNetTLS (TLS_Enable t) (Some tc)).

End sarama.

(** [time.Minute], in nanoseconds. *)
Definition time_Minute : Z := 60000000000.

(** ** The outside world *)

(** What conn.go calls and does not define.  [Ext] is the state of the
    outside world (the file system, the network, the brokers); [Client],
    [ClusterAdmin], [Broker], [OffsetRequest] and [OffsetResponse] are
    sarama's handles and messages.  Reading a file or the configuration
    looks at the world; dialling, closing, opening a broker and sending a
    request change it.  The errors that [Close] and [Open] return are
    dropped by conn.go, so they are not part of the model.
    [ActiveCluster] belongs to package config, [NewConfig] to sarama. *)
Record Externals (Ext Client ClusterAdmin Broker OffsetRequest OffsetResponse : Type)
  : Type := mkExternals {
  ReadConfig : Ext -> string -> result config.Config;
  ActiveCluster : config.Config -> option config.Cluster;
  NewConfig : sarama.Config;
  ParseKafkaVersion : string -> result sarama.KafkaVersion;
  ReadFile : Ext -> string -> result bytes;
  X509KeyPair : bytes -> bytes -> result tls.Certificate;
  NewClient : Ext -> list string -> sarama.Config -> Ext * result Client;
  NewClusterAdminFromClient : Ext -> Client -> Ext * result ClusterAdmin;
  Broker_GetAvailableOffsets :
    Ext -> Broker -> OffsetRequest -> Ext * result OffsetResponse;
  Broker_Close : Ext -> Broker -> Ext;
  Broker_Open : Ext -> Broker -> sarama.Config -> Ext
}.
Arguments ReadConfig {_ _ _ _ _ _} _ _ _.
Arguments ActiveCluster {_ _ _ _ _ _} _ _.
Arguments NewConfig {_ _ _ _ _ _} _.
Arguments ParseKafkaVersion {_ _ _ _ _ _} _ _.
Arguments ReadFile {_ _ _ _ _ _} _ _ _.
Arguments X509KeyPair {_ _ _ _ _ _} _ _ _.
Arguments NewClient {_ _ _ _ _ _} _ _ _ _.
Arguments NewClusterAdminFromClient {_ _ _ _ _ _} _ _ _.
Arguments Broker_GetAvailableOffsets {_ _ _ _ _ _} _ _ _ _.
Arguments Broker_Close {_ _ _ _ _ _} _ _ _.
Arguments Broker_Open {_ _ _ _ _ _} _ _ _ _.

(** The calls that reach the configuration loader, the network or a
    broker, as a record of what a run did. *)
Inductive Event (Client Broker OffsetRequest : Type) : Type :=
| EvReadConfig
| EvNewClient (brokers : list string) (cfg : sarama.Config)
| EvNewClusterAdmin (client : Client)
| EvGetAvailableOffsets (broker : Broker) (req : OffsetRequest)
| EvClose (broker : Broker)
| EvOpen (broker : Broker) (cfg : sarama.Config).
Arguments EvReadConfig {_ _ _}.
Arguments EvNewClient {_ _ _} brokers cfg.
Arguments EvNewClusterAdmin {_ _ _} client.
Arguments EvGetAvailableOffsets {_ _ _} broker req.
Arguments EvClose {_ _ _} broker.
Arguments EvOpen {_ _ _} broker cfg.

(** ** package connection *)
Section connection.

Context {Ext Client ClusterAdmin Broker OffsetRequest OffsetResponse : Type}.
Variable X : Externals Ext Client ClusterAdmin Broker OffsetRequest OffsetResponse.

(** [ConnManager], with the world it runs in: [conns] is the struct's
    only field; [calls] lists the external calls made so far, oldest
    first. *)
Record ConnManager : Type := mkConnManager {
  conns : gmap string Client;
  world : Ext;
  calls : list (Event Client Broker OffsetRequest)
}.

Definition NewConnManager (w : Ext) : ConnManager :=
  mkConnManager ∅ w [].

(** A method of [*ConnManager]: it may change the manager and the world,
    and returns, fails or panics. *)
Definition M (A : Type) : Type := ConnManager -> ConnManager * outcome A.

#[export] Instance M_ret : MRet M := fun A a c => (c, Ok a).
#[export] Instance M_bind : MBind M := fun A B k m c =>
  match m c with
  | (c', Ok a) => k a c'
  | (c', Err err) => (c', Err err)
  | (c', Panic) => (c', Panic)
  end.

(** The value of a pure computation as the method's own outcome. *)
Definition lift {A : Type} (f : Ext -> outcome A) : M A :=
  fun c => (c, f (world c)).

(** A call that changes the world; its [(value, error)] is handed back. *)
Definition call {A : Type} (ev : Event Client Broker OffsetRequest)
    (f : Ext -> Ext * result A) : M (result A) :=
  fun c =>
    let (w, r) := f (world c) in
    (mkConnManager (conns c) w (calls c ++ [ev]), Ok r).

(** [if err != nil { return nil, err }] *)
Definition orReturn {A : Type} (m : M (result A)) : M A :=
  r ← m;
  match r with
  | Success a => mret a
  | Failure err => fun c => (c, Err err)
  end.

(** [c.conns[cluster] = client] *)
Definition store (cluster : string) (client : Client) : M unit :=
  fun c => (mkConnManager (<[cluster := client]> (conns c)) (world c) (calls c), Ok tt).

(** [config.ReadConfig] with the empty path, as conn.go calls it. *)
Definition readConfig : M (result config.Config) :=
  call EvReadConfig (fun w => (w, ReadConfig X w EmptyString)).

(** The loop [for _, cx := range configTotal.Clusters] of lines 42-46,
    92-96 and 123-127: [cl] starts nil and is set to every cluster of
    that name in turn. *)
Definition rangeClusters (clusters : list config.Cluster) (cluster : string)
  : option config.Cluster :=
  fold_left
    (fun cl cx => if String.eqb (config.Name cx) cluster then Some cx else cl)
    clusters None.

(** Lines 169-201: the [tls.Config] of a cluster with a TLS section
    whose security protocol is not SASL_SSL. *)
Definition tlsConfigOf (w : Ext) (t : config.TLS) : outcome tls.Config :=
  let tlsConfig := tls.mkConfig (config.Insecure t) None [] in
  tlsConfig ←
    (if nonempty (config.Cafile t) then
       match ReadFile X w (config.Cafile t) with
       | Failure err => Err (Errorf ("Unable to read Cafile :" +:+ Error err))
       | Success caCert =>
           let caCertPool := tls.NewCertPool in
           let caCertPool := tls.AppendCertsFromPEM caCertPool caCert in
           Ok (tls.set_RootCAs caCertPool tlsConfig)
       end
     else Ok tlsConfig);
  tlsConfig ←
    (if nonempty (config.Clientfile t) && nonempty (config.Clientkeyfile t) then
       match ReadFile X w (config.Clientfile t) with
       | Failure err => Err (Errorf ("Unable to read Clientfile :" +:+ Error err))
       | Success clientCert =>
           match ReadFile X w (config.Clientkeyfile t) with
           | Failure err =>
               Err (Errorf ("Unable to read Clientkeyfile :" +:+ Error err))
           | Success clientKey =>
               match X509KeyPair X clientCert clientKey with
               | Failure err =>
                   Err (Errorf ("Unable to creatre KeyPair: " +:+ Error err))
               | Success cert => Ok (tls.set_Certificates [cert] tlsConfig)
               end
           end
       end
     else Ok tlsConfig);
  Ok tlsConfig.

(** Lines 205-222: the [tls.Config] of a SASL_SSL cluster. *)
Definition saslSslTlsConfigOf (w : Ext) (t : option config.TLS)
  : outcome tls.Config :=
  match t with
  | Some t =>
      let tlsConfig := tls.mkConfig (config.Insecure t) None [] in
      if nonempty (config.Cafile t) then
        match ReadFile X w (config.Cafile t) with
        | Failure err => Err err
        | Success caCert =>
            let caCertPool := tls.NewCertPool in
            let caCertPool := tls.AppendCertsFromPEM caCertPool caCert in
            Ok (tls.set_RootCAs caCertPool tlsConfig)
        end
      else Ok tlsConfig
  | None => Ok (tls.mkConfig false None [])
  end.

(** [toSaramaConfig], lines 148-232.  The argument is a pointer; reading
    [cluster.Version] through a nil pointer panics, and so does reading
    [cluster.SASL.Mechanism] when [cluster.SASL] is nil. *)
Definition toSaramaConfig (w : Ext) (cluster : option config.Cluster)
  : outcome sarama.Config :=
  let saramaConfig := NewConfig X in
  let saramaConfig := sarama.set_Version sarama.V1_1_0_0 saramaConfig in
  let saramaConfig := sarama.set_Producer_Return_Successes true saramaConfig in
  let saramaConfig := sarama.set_Metadata_Full true saramaConfig in
  let saramaConfig := sarama.set_Metadata_RefreshFrequency time_Minute saramaConfig in
  cluster ← deref cluster;
  saramaConfig ←
    (if nonempty (config.Version cluster) then
       match ParseKafkaVersion X (config.Version cluster) with
       | Failure err =>
           Err (Errorf ("Unable to parse Kafka version: " +:+ Error err))
       | Success parsedVersion => Ok (sarama.set_Version parsedVersion saramaConfig)
       end
     else Ok saramaConfig);
  let saramaConfig :=
    match config.SASL_ cluster with
    | Some sasl =>
        let saramaConfig := sarama.set_SASL_Enable true saramaConfig in
        let saramaConfig := sarama.set_SASL_User (config.Username sasl) saramaConfig in
        sarama.set_SASL_Password (config.Password sasl) saramaConfig
    | None => saramaConfig
    end in
  saramaConfig ←
    match config.TLS_ cluster with
    | Some t =>
        if negb (String.eqb (config.SecurityProtocol cluster) "SASL_SSL") then
          let saramaConfig := sarama.set_TLS_Enable true saramaConfig in
          tlsConfig ← tlsConfigOf w t;
          Ok (sarama.set_TLS_Config tlsConfig saramaConfig)
        else Ok saramaConfig
    | None => Ok saramaConfig
    end;
  saramaConfig ←
    (if String.eqb (config.SecurityProtocol cluster) "SASL_SSL" then
       let saramaConfig := sarama.set_TLS_Enable true saramaConfig in
       tlsConfig ← saslSslTlsConfigOf w (config.TLS_ cluster);
       let saramaConfig := sarama.set_TLS_Config tlsConfig saramaConfig in
       sasl ← deref (config.SASL_ cluster);
       if String.eqb (config.Mechanism sasl) "SCRAM-SHA-512" then
         let saramaConfig :=
           sarama.set_SASL_SCRAMClientGeneratorFunc sarama.SHA512 saramaConfig in
         Ok (sarama.set_SASL_Mechanism sarama.SASLTypeSCRAMSHA512 saramaConfig)
       else if String.eqb (config.Mechanism sasl) "SCRAM-SHA-256" then
         let saramaConfig :=
           sarama.set_SASL_SCRAMClientGeneratorFunc sarama.SHA256 saramaConfig in
         Ok (sarama.set_SASL_Mechanism sarama.SASLTypeSCRAMSHA256 saramaConfig)
       else Ok saramaConfig
     else Ok saramaConfig);
  Ok saramaConfig.

(** The message of line 48. *)
Definition notFound (cluster : string) : error :=
  Errorf ("Cluster " +:+ dquote +:+ cluster +:+ dquote +:+ " not found.").

(** [GetClient], lines 32-65. *)
Definition GetClient (cluster : string) : M Client :=
  fun c =>
    match conns c !! cluster with
    | Some cl => (c, Ok cl)
    | None =>
        (configTotal ← orReturn readConfig;
         match rangeClusters (config.Clusters configTotal) cluster with
         | None => fun c => (c, Err (notFound cluster))
         | Some cl =>
             cfg ← lift (fun w => toSaramaConfig w (Some cl));
             client ← orReturn
               (call (EvNewClient (config.Brokers cl) cfg)
                  (fun w => NewClient X w (config.Brokers cl) cfg));
             _ ← store cluster client;
             mret client
         end) c
    end.

(** Lines 88-100 and 119-131: the cluster that [GetConfig] and
    [GetAdminClient] go on with. *)
Definition clusterOrActive (configTotal : config.Config) (cluster : string)
  : option config.Cluster :=
  let cl :=
    if String.eqb cluster EmptyString then ActiveCluster X configTotal
    else rangeClusters (config.Clusters configTotal) cluster in
  match cl with
  | None => ActiveCluster X configTotal
  | Some _ => cl
  end.

(** [GetConfig], lines 82-108. *)
Definition GetConfig (cluster : string) : M sarama.Config :=
  configTotal ← orReturn readConfig;
  let cl := clusterOrActive configTotal cluster in
  cfg ← lift (fun w => toSaramaConfig w cl);
  mret cfg.

(** [GetAdminClient], lines 110-146. *)
Definition GetAdminClient (cluster : string) : M ClusterAdmin :=
  fun c =>
    match conns c !! cluster with
    | Some cl =>
        orReturn (call (EvNewClusterAdmin cl)
                    (fun w => NewClusterAdminFromClient X w cl)) c
    | None =>
        (configTotal ← orReturn readConfig;
         let cl := clusterOrActive configTotal cluster in
         cfg ← lift (fun w => toSaramaConfig w cl);
         cl ← lift (fun _ => deref cl);
         client ← orReturn
           (call (EvNewClient (config.Brokers cl) cfg)
              (fun w => NewClient X w (config.Brokers cl) cfg));
         _ ← store cluster client;
         orReturn (call (EvNewClusterAdmin client)
                     (fun w => NewClusterAdminFromClient X w client))) c
    end.

(** [Connect], lines 24-30. *)
Definition Connect (cluster : string) : M unit :=
  _ ← GetAdminClient cluster;
  mret tt.

(** [GetAvailableOffsets], lines 67-80. *)
Definition GetAvailableOffsets (broker : Broker) (cluster : string)
    (req : OffsetRequest) : M OffsetResponse :=
  r ← call (EvGetAvailableOffsets broker req)
        (fun w => Broker_GetAvailableOffsets X w broker req);
  match r with
  | Failure _ =>
      _ ← call (EvClose broker) (fun w => (Broker_Close X w broker, Success tt));
      cfg ← GetConfig cluster;
      _ ← call (EvOpen broker cfg) (fun w => (Broker_Open X w broker cfg, Success tt));
      orReturn (call (EvGetAvailableOffsets broker req)
                  (fun w => Broker_GetAvailableOffsets X w broker req))
  | Success resp => mret resp
  end.

End connection.

(** ** When the translation fails, and with what error *)
Section failures.

Context {Ext Client ClusterAdmin Broker OffsetRequest OffsetResponse : Type}.
Variable X : Externals Ext Client ClusterAdmin Broker OffsetRequest OffsetResponse.

Definition is_Failure {A : Type} (r : result A) : bool :=
  match r with
  | Success _ => false
  | Failure _ => true
  end.

(** The path is set and the file cannot be read. *)
Definition unreadable (w : Ext) (path : string) : bool :=
  nonempty path && is_Failure (ReadFile X w path).

(** The version string is set and does not parse. *)
Definition versionUnparsable (cluster : config.Cluster) : bool :=
  nonempty (config.Version cluster)
  && is_Failure (ParseKafkaVersion X (config.Version cluster)).

(** Both files were read and do not make a key pair. *)
Definition keyPairInvalid (w : Ext) (t : config.TLS) : bool :=
  match ReadFile X w (config.Clientfile t), ReadFile X w (config.Clientkeyfile t) with
  | Success clientCert, Success clientKey =>
      is_Failure (X509KeyPair X clientCert clientKey)
  | _, _ => false
  end.

(** The failure condition as the specification words it: the version does
    not parse, or one of the three file paths is set and unreadable, or the
    client certificate and key do not make a pair. *)
Definition failsAsSpecified (w : Ext) (cluster : config.Cluster) : bool :=
  versionUnparsable cluster
  || match config.TLS_ cluster with
     | Some t =>
         unreadable w (config.Cafile t)
         || unreadable w (config.Clientfile t)
         || unreadable w (config.Clientkeyfile t)
         || keyPairInvalid w t
     | None => false
     end.

(** The failure condition of the code: the client certificate and key
    count only when both paths are set and the security protocol is not
    SASL_SSL. *)
Definition failsAsWritten (w : Ext) (cluster : config.Cluster) : bool :=
  versionUnparsable cluster
  || match config.TLS_ cluster with
     | Some t =>
         unreadable w (config.Cafile t)
         || (negb (String.eqb (config.SecurityProtocol cluster) "SASL_SSL")
             && nonempty (config.Clientfile t)
             && nonempty (config.Clientkeyfile t)
             && (unreadable w (config.Clientfile t)
                 || unreadable w (config.Clientkeyfile t)
                 || keyPairInvalid w t))
     | None => false
     end.

(** [err] is an error that one of the calls made for this record returned:
    the version parse, a read of one of its files, or the pairing of what
    was read. *)
Definition underlyingError (w : Ext) (cluster : config.Cluster) (err : error)
  : Prop :=
  ParseKafkaVersion X (config.Version cluster) = Failure err
  \/ (exists t, config.TLS_ cluster = Some t /\
        (ReadFile X w (config.Cafile t) = Failure err
         \/ ReadFile X w (config.Clientfile t) = Failure err
         \/ ReadFile X w (config.Clientkeyfile t) = Failure err
         \/ exists clientCert clientKey,
              ReadFile X w (config.Clientfile t) = Success clientCert /\
              ReadFile X w (config.Clientkeyfile t) = Success clientKey /\
              X509KeyPair X clientCert clientKey = Failure err)).

(** The errors of [toSaramaConfig], line by line: a new error made of a
    prefix and the message of the underlying one (lines 158, 176, 186, 190,
    195), or the underlying one itself (line 212). *)
Inductive translationError (w : Ext) (cluster : config.Cluster) : error -> Prop :=
| err_version (u : error) :
    ParseKafkaVersion X (config.Version cluster) = Failure u ->
    translationError w cluster
      (Errorf ("Unable to parse Kafka version: " +:+ Error u))
| err_cafile (t : config.TLS) (u : error) :
    config.TLS_ cluster = Some t ->
    config.SecurityProtocol cluster <> "SASL_SSL" ->
    ReadFile X w (config.Cafile t) = Failure u ->
    translationError w cluster (Errorf ("Unable to read Cafile :" +:+ Error u))
| err_clientfile (t : config.TLS) (u : error) :
    config.TLS_ cluster = Some t ->
    config.SecurityProtocol cluster <> "SASL_SSL" ->
    ReadFile X w (config.Clientfile t) = Failure u ->
    translationError w cluster (Errorf ("Unable to read Clientfile :" +:+ Error u))
| err_clientkeyfile (t : config.TLS) (u : error) :
    config.TLS_ cluster = Some t ->
    config.SecurityProtocol cluster <> "SASL_SSL" ->
    ReadFile X w (config.Clientkeyfile t) = Failure u ->
    translationError w cluster
      (Errorf ("Unable to read Clientkeyfile :" +:+ Error u))
| err_keypair (t : config.TLS) (clientCert clientKey : bytes) (u : error) :
    config.TLS_ cluster = Some t ->
    config.SecurityProtocol cluster <> "SASL_SSL" ->
    ReadFile X w (config.Clientfile t) = Success clientCert ->
    ReadFile X w (config.Clientkeyfile t) = Success clientKey ->
    X509KeyPair X clientCert clientKey = Failure u ->
    translationError w cluster (Errorf ("Unable to creatre KeyPair: " +:+ Error u))
| err_cafile_sasl_ssl (t : config.TLS) (u : error) :
    config.TLS_ cluster = Some t ->
    config.SecurityProtocol cluster = "SASL_SSL" ->
    ReadFile X w (config.Cafile t) = Failure u ->
    translationError w cluster u.

End failures.

(** ** Callers and their calls *)

(** The kind of an external call. *)
Inductive Kind : Type :=
| KReadConfig
| KNewClient
| KNewClusterAdmin
| KGetAvailableOffsets
| KClose
| KOpen.

#[global] Instance Kind_eq_dec : EqDecision Kind.
Proof. solve_decision. Defined.

Definition kind {Client Broker OffsetRequest : Type}
    (ev : Event Client Broker OffsetRequest) : Kind :=
  match ev with
  | EvReadConfig => KReadConfig
  | EvNewClient _ _ => KNewClient
  | EvNewClusterAdmin _ => KNewClusterAdmin
  | EvGetAvailableOffsets _ _ => KGetAvailableOffsets
  | EvClose _ => KClose
  | EvOpen _ _ => KOpen
  end.

(** How many calls of kind [k] a record of calls holds. *)
Definition count {Client Broker OffsetRequest : Type} (k : Kind)
    (evs : list (Event Client Broker OffsetRequest)) : nat :=
  length (filter (fun ev => bool_decide (kind ev = k)) evs).

(** A call of one of the exported methods of [*ConnManager]. *)
Inductive Op (Broker OffsetRequest : Type) : Type :=
| OpConnect (cluster : string)
| OpGetClient (cluster : string)
| OpGetAvailableOffsets (broker : Broker) (cluster : string) (req : OffsetRequest)
| OpGetConfig (cluster : string)
| OpGetAdminClient (cluster : string).
Arguments OpConnect {_ _} cluster.
Arguments OpGetClient {_ _} cluster.
Arguments OpGetAvailableOffsets {_ _} broker cluster req.
Arguments OpGetConfig {_ _} cluster.
Arguments OpGetAdminClient {_ _} cluster.

(** The name under which the call may put a connection in the cache. *)
Definition requested {Broker OffsetRequest : Type}
    (op : Op Broker OffsetRequest) : gset string :=
  match op with
  | OpConnect cluster => {[cluster]}
  | OpGetClient cluster => {[cluster]}
  | OpGetAdminClient cluster => {[cluster]}
  | OpGetAvailableOffsets _ _ _ => ∅
  | OpGetConfig _ => ∅
  end.

Section callers.

Context {Ext Client ClusterAdmin Broker OffsetRequest OffsetResponse : Type}.
Variable X : Externals Ext Client ClusterAdmin Broker OffsetRequest OffsetResponse.

(** The manager after the call, whatever the call returned. *)
Definition after (op : Op Broker OffsetRequest)
    (c : @ConnManager Ext Client Broker OffsetRequest)
  : @ConnManager Ext Client Broker OffsetRequest :=
  match op with
  | OpConnect cluster => fst (Connect X cluster c)
  | OpGetClient cluster => fst (GetClient X cluster c)
  | OpGetAvailableOffsets broker cluster req =>
      fst (GetAvailableOffsets X broker cluster req c)
  | OpGetConfig cluster => fst (GetConfig X cluster c)
  | OpGetAdminClient cluster => fst (GetAdminClient X cluster c)
  end.

(** The manager after a sequence of calls. *)
Definition afterAll (ops : list (Op Broker OffsetRequest))
    (c : @ConnManager Ext Client Broker OffsetRequest)
  : @ConnManager Ext Client Broker OffsetRequest :=
  fold_left (fun c op => after op c) ops c.

(** The outcome of a method for a library result: [return f()]. *)
Definition returned {A : Type} (r : result A) : outcome A :=
  match r with
  | Success a => Ok a
  | Failure err => Err err
  end.

End callers.

(** ** A concrete outside world

    A small world to run the code in: a file system, a configuration that
    may fail to load, a network that may be down, a cluster whose
    controller may be unavailable, and one broker connection that is broken
    or healthy.  A client or an admin handle is the broker list it was
    dialled with; an offset request is answered by its own number. *)
Module demo.

Record World : Type := mkWorld {
  files : list (string * bytes);
  configFile : option config.Config;
  reachable : bool;
  controller : bool;
  healthy : bool
}.

Definition setHealthy (b : bool) (w : World) : World :=
  mkWorld (files w) (configFile w) (reachable w) (controller w) b.

Fixpoint lookupFile (fs : list (string * bytes)) (path : string) : option bytes :=
  match fs with
  | [] => None
  | (p, content) :: fs' =>
      if String.eqb p path then Some content else lookupFile fs' path
  end.

Definition readFile (w : World) (path : string) : result bytes :=
  match lookupFile (files w) path with
  | Some content => Success content
  | None => Failure (LibError ("open " +:+ path +:+ ": no such file or directory"))
  end.

Definition readConfig (w : World) (path : string) : result config.Config :=
  match configFile w with
  | Some c => Success c
  | None => Failure (LibError "yaml: did not find expected key")
  end.

(** The cluster named by [CurrentCluster], else the first one, else nil. *)
Definition activeCluster (c : config.Config) : option config.Cluster :=
  match find (fun cx => String.eqb (config.Name cx) (config.CurrentCluster c))
             (config.Clusters c) with
  | Some cx => Some cx
  | None => head (config.Clusters c)
  end.

Definition newConfig : sarama.Config :=
  sarama.mkConfig (1, 0, 0, 0)%N false true 600000000000
    (sarama.mkNetSASL false EmptyString EmptyString EmptyString None)
    (sarama.mkNetTLS false None).

Definition parseKafkaVersion (s : string) : result sarama.KafkaVersion :=
  if String.eqb s "2.0.0" then Success (2, 0, 0, 0)%N
  else if String.eqb s "0.10.2.0" then Success (0, 10, 2, 0)%N
  else Failure (LibError ("invalid version `" +:+ s +:+ "`")).

Definition x509KeyPair (cert key : bytes) : result tls.Certificate :=
  match key with
  | [] => Failure (LibError "tls: failed to find any PEM data in key input")
  | _ => Success (tls.mkCertificate [cert] key)
  end.

Definition newClient (w : World) (brokers : list string) (cfg : sarama.Config)
  : World * result (list string) :=
  if reachable w then (w, Success brokers)
  else (w, Failure (LibError "kafka: client has run out of available brokers to talk to")).

Definition newClusterAdminFromClient (w : World) (client : list string)
  : World * result (list string) :=
  if controller w then (w, Success client)
  else (w, Failure (LibError "kafka: controller is not available")).

Definition getAvailableOffsets (w : World) (broker : nat) (req : nat)
  : World * result nat :=
  if healthy w then (w, Success req)
  else (w, Failure (LibError "EOF")).

Definition X : Externals World (list string) (list string) nat nat nat :=
  mkExternals _ _ _ _ _ _
    readConfig activeCluster newConfig parseKafkaVersion readFile x509KeyPair
    newClient newClusterAdminFromClient getAvailableOffsets
    (fun w _ => setHealthy false w)
    (fun w _ _ => setHealthy true w).

(** Two clusters, and a third that reuses the name of the first. *)
Definition local : config.Cluster :=
  config.mkCluster "local" EmptyString ["localhost:9092"] None None EmptyString.

Definition prod : config.Cluster :=
  config.mkCluster "prod" "2.0.0" ["kafka-1:9093"; "kafka-2:9093"]
    (Some (config.mkSASL "SCRAM-SHA-512" "alice" "secret"))
    (Some (config.mkTLS "ca.pem" EmptyString EmptyString false))
    "SASL_SSL".

Definition local2 : config.Cluster :=
  config.mkCluster "local" "0.10.2.0" ["127.0.0.1:9092"] None None EmptyString.

Definition configTotal : config.Config :=
  config.mkConfig "prod" [local; prod; local2].

Definition pem : bytes := [Byte.x2d; Byte.x2d; Byte.x2d].

(** Everything works, except that the broker connection is broken. *)
Definition w0 : World :=
  mkWorld [("ca.pem", pem)] (Some configTotal) true true false.

(** What [prod] translates to in [w0]. *)
Definition prodConfig : sarama.Config :=
  sarama.mkConfig (2, 0, 0, 0)%N true true 60000000000
    (sarama.mkNetSASL true "SCRAM-SHA-512" "alice" "secret" (Some sarama.SHA512))
    (sarama.mkNetTLS true (Some (tls.mkConfig false (Some [pem]) []))).

(** What [local2] translates to. *)
Definition local2Config : sarama.Config :=
  sarama.mkConfig (0, 10, 2, 0)%N true true 60000000000
    (sarama.mkNetSASL false EmptyString EmptyString EmptyString None)
    (sarama.mkNetTLS false None).

(** A TLS section that names a client certificate, which is not there, and
    no client key. *)
Definition certOnly : config.Cluster :=
  config.mkCluster "certOnly" EmptyString ["kafka-3:9093"] None
    (Some (config.mkTLS EmptyString "client.pem" EmptyString false))
    EmptyString.

(** A TLS section with a CA file, a client certificate and a client key,
    and a SCRAM mechanism without the SASL_SSL protocol. *)
Definition mutual : config.Cluster :=
  config.mkCluster "mutual" EmptyString ["kafka-5:9093"]
    (Some (config.mkSASL "SCRAM-SHA-256" "bob" "hunter2"))
    (Some (config.mkTLS "ca.pem" "client.pem" "client.key" true))
    "SSL".

(** As [w0], with the client certificate and key of [mutual]. *)
Definition wMutual : World :=
  mkWorld [("ca.pem", pem); ("client.pem", pem); ("client.key", pem)]
    (Some configTotal) true true false.

(** What [mutual] translates to in [wMutual]. *)
Definition mutualConfig : sarama.Config :=
  sarama.mkConfig (1, 1, 0, 0)%N true true 60000000000
    (sarama.mkNetSASL true EmptyString "bob" "hunter2" None)
    (sarama.mkNetTLS true
       (Some (tls.mkConfig true (Some [pem]) [tls.mkCertificate [pem] pem]))).

(** SASL_SSL without a SASL section, and a CA file that is not there. *)
Definition noSasl : config.Cluster :=
  config.mkCluster "noSasl" EmptyString ["kafka-6:9093"] None
    (Some (config.mkTLS "missing.pem" EmptyString EmptyString false))
    "SASL_SSL".

(** SASL_SSL with neither a SASL nor a TLS section. *)
Definition bare : config.Cluster :=
  config.mkCluster "bare" EmptyString ["kafka-7:9093"] None None "SASL_SSL".

(** A version string that does not parse. *)
Definition badVersion : config.Cluster :=
  config.mkCluster "badVersion" "two" ["kafka-4:9092"] None None EmptyString.

(** As [w0], with a configuration that does not load. *)
Definition noConfig : World :=
  mkWorld [("ca.pem", pem)] None true true false.

(** As [w0], with a controller that is not available. *)
Definition noController : World :=
  mkWorld [("ca.pem", pem)] (Some configTotal) true false false.

(** A new manager in [w0], the manager after a first [GetClient], and
    some calls to make after that. *)
Definition fresh : @ConnManager World (list string) nat nat :=
  NewConnManager w0.

Definition cached : @ConnManager World (list string) nat nat :=
  fst (GetClient X "local" fresh).

(** New managers in the two other worlds. *)
Definition freshNoConfig : @ConnManager World (list string) nat nat :=
  NewConnManager noConfig.

Definition freshNoController : @ConnManager World (list string) nat nat :=
  NewConnManager noController.

(** The manager after [Connect], after a [GetAdminClient] with a name that
    no cluster has, and a manager whose cache is filled while the
    configuration no longer loads. *)
Definition connected : @ConnManager World (list string) nat nat :=
  fst (Connect X "local" fresh).

Definition afterFallback : @ConnManager World (list string) nat nat :=
  fst (GetAdminClient X "nosuch" fresh).

Definition cachedNoConfig : @ConnManager World (list string) nat nat :=
  mkConnManager (conns cached) noConfig (calls cached).

(** A configuration without clusters, and a new manager in that world. *)
Definition wEmpty : World :=
  mkWorld [] (Some (config.mkConfig EmptyString [])) true true false.

Definition freshEmpty : @ConnManager World (list string) nat nat :=
  NewConnManager wEmpty.

(** The manager after a [GetAdminClient] that failed at the making of the
    admin handle. *)
Definition afterFailedAdmin : @ConnManager World (list string) nat nat :=
  fst (GetAdminClient X "local" freshNoController).

Definition later : list (Op nat nat) :=
  [OpGetAdminClient "nosuch"; OpGetConfig EmptyString; OpGetClient "prod";
   OpGetAvailableOffsets 1 "local" 7; OpConnect "local"].

End demo.

(** * Verification *)

(** ** Configuration translation *)
Section translation.

Context {Ext Client ClusterAdmin Broker OffsetRequest OffsetResponse : Type}.
Variable X : Externals Ext Client ClusterAdmin Broker OffsetRequest OffsetResponse.

#[local] Arguments tlsConfigOf : simpl never.
#[local] Arguments saslSslTlsConfigOf : simpl never.

Lemma eqb_SASL_SSL (s : string) :
  String.eqb s "SASL_SSL" = true <-> s = "SASL_SSL".
Proof. apply String.eqb_eq. Qed.

(** C8: a record whose security protocol is SASL_SSL and whose SASL section
    is absent makes [toSaramaConfig] panic (line 223 reads
    [cluster.SASL.Mechanism] through the nil pointer), whatever the outside
    world is, as soon as no error was returned before that line. *)
Theorem toSaramaConfig_SASL_SSL_nil_SASL_panics
    (w : Ext) (name : string) (brokers : list string) :
  toSaramaConfig X w
    (Some (config.mkCluster name EmptyString brokers None None "SASL_SSL"))
  = Panic.
Proof. reflexivity. Qed.

(** C5: when [toSaramaConfig] returns a configuration, SASL is enabled in it
    exactly when the record has a SASL section, and then with the record's
    username and password; TLS is enabled exactly when the record has a TLS
    section or its security protocol is SASL_SSL; the version is the parsed
    version string when that string is not empty, and V1_1_0_0 otherwise.
    ([sarama.NewConfig] leaves SASL and TLS disabled.) *)
Theorem toSaramaConfig_field_by_field
    (w : Ext) (cluster : config.Cluster) (cfg : sarama.Config) :
  sarama.SASL_Enable (sarama.Net_SASL (NewConfig X)) = false ->
  sarama.TLS_Enable (sarama.Net_TLS (NewConfig X)) = false ->
  toSaramaConfig X w (Some cluster) = Ok cfg ->
  (sarama.SASL_Enable (sarama.Net_SASL cfg) = true
     <-> is_Some (config.SASL_ cluster)) /\
  (forall sasl, config.SASL_ cluster = Some sasl ->
     sarama.SASL_User (sarama.Net_SASL cfg) = config.Username sasl /\
     sarama.SASL_Password (sarama.Net_SASL cfg) = config.Password sasl) /\
  (sarama.TLS_Enable (sarama.Net_TLS cfg) = true
     <-> (is_Some (config.TLS_ cluster)
          \/ config.SecurityProtocol cluster = "SASL_SSL")) /\
  (if nonempty (config.Version cluster)
   then ParseKafkaVersion X (config.Version cluster)
        = Success (sarama.Version cfg)
   else sarama.Version cfg = sarama.V1_1_0_0).
Proof.
  intros Hsasl Htls.
  destruct cluster as [name version brokers sasl t proto].
  unfold toSaramaConfig, deref, mbind, outcome_bind.
  set (T1 := tlsConfigOf X w). set (T2 := saslSslTlsConfigOf X w).
  clearbody T1 T2. simpl.
  destruct (String.eqb proto "SASL_SSL") eqn:Hproto;
    [apply eqb_SASL_SSL in Hproto | apply String.eqb_neq in Hproto];
    destruct (nonempty version); simpl;
    try destruct (ParseKafkaVersion X version); simpl; try discriminate;
    destruct t as [t|]; simpl;
    try destruct (T1 t); try destruct (T2 _);
    simpl; try discriminate;
    destruct sasl as [sasl|]; simpl; try discriminate;
    repeat case_match; intros; simplify_eq; simpl; rewrite ?Hsasl, ?Htls.
  all: repeat split; intros; simplify_eq; try done; eauto.
  all: match goal with
       | H : is_Some None |- _ => destruct H; done
       | H : is_Some None \/ _ |- _ => destruct H as [[? ?]|?]; done
       end.
Qed.

(** *** Failures of the translation *)

Lemma tlsConfigOf_outcome (w : Ext) (t : config.TLS) :
  match tlsConfigOf X w t with
  | Ok _ =>
      unreadable X w (config.Cafile t) = false /\
      nonempty (config.Clientfile t) && nonempty (config.Clientkeyfile t)
      && (unreadable X w (config.Clientfile t)
          || unreadable X w (config.Clientkeyfile t)
          || keyPairInvalid X w t) = false
  | Err _ =>
      unreadable X w (config.Cafile t)
      || nonempty (config.Clientfile t) && nonempty (config.Clientkeyfile t)
         && (unreadable X w (config.Clientfile t)
             || unreadable X w (config.Clientkeyfile t)
             || keyPairInvalid X w t) = true
  | Panic => False
  end.
Proof.
  unfold tlsConfigOf, unreadable, keyPairInvalid, mbind, outcome_bind.
  destruct (nonempty (config.Cafile t)); simpl;
    [destruct (ReadFile X w (config.Cafile t)); simpl; [|done] |];
    (destruct (nonempty (config.Clientfile t)); simpl; [|done]);
    (destruct (nonempty (config.Clientkeyfile t)); simpl; [|done]);
    (destruct (ReadFile X w (config.Clientfile t)); simpl; [|done]);
    (destruct (ReadFile X w (config.Clientkeyfile t)); simpl; [|done]);
    destruct (X509KeyPair X _ _); done.
Qed.

Lemma saslSslTlsConfigOf_outcome (w : Ext) (t : option config.TLS) :
  match saslSslTlsConfigOf X w t with
  | Ok _ => forall t', t = Some t' -> unreadable X w (config.Cafile t') = false
  | Err _ => exists t', t = Some t' /\ unreadable X w (config.Cafile t') = true
  | Panic => False
  end.
Proof.
  unfold saslSslTlsConfigOf, unreadable.
  destruct t as [t|]; [|done].
  destruct (nonempty (config.Cafile t)) eqn:Hn; simpl;
    [destruct (ReadFile X w (config.Cafile t)) eqn:Hr; simpl |].
  - intros t' [= <-]. by rewrite Hn, Hr.
  - exists t. by rewrite Hn, Hr.
  - intros t' [= <-]. by rewrite Hn.
Qed.

(** What [toSaramaConfig] does on a record, in full: it fails exactly under
    [failsAsWritten], and otherwise panics exactly when the security
    protocol is SASL_SSL and there is no SASL section. *)
Lemma toSaramaConfig_outcome (w : Ext) (cluster : config.Cluster) :
  match toSaramaConfig X w (Some cluster) with
  | Ok _ =>
      failsAsWritten X w cluster = false /\
      (config.SecurityProtocol cluster = "SASL_SSL" ->
       is_Some (config.SASL_ cluster))
  | Err _ => failsAsWritten X w cluster = true
  | Panic =>
      failsAsWritten X w cluster = false /\
      config.SecurityProtocol cluster = "SASL_SSL" /\
      config.SASL_ cluster = None
  end.
Proof.
  destruct cluster as [name version brokers sasl t proto].
  unfold toSaramaConfig, failsAsWritten, versionUnparsable, deref, mbind,
    outcome_bind; simpl.
  destruct (nonempty version); simpl;
    [destruct (ParseKafkaVersion X version); simpl; [|done] |].
  all: destruct (String.eqb proto "SASL_SSL") eqn:Hproto;
    [apply eqb_SASL_SSL in Hproto | apply String.eqb_neq in Hproto]; simpl.
  all: destruct t as [t|]; simpl.
  all: lazymatch goal with
       | |- context [saslSslTlsConfigOf X _ (Some ?t)] =>
           pose proof (saslSslTlsConfigOf_outcome w (Some t)) as HT;
           destruct (saslSslTlsConfigOf X w (Some t)); simpl;
           [specialize (HT t eq_refl) | destruct HT as (? & [= <-] & HT)
           | done];
           rewrite HT; simpl; try done
       | |- context [saslSslTlsConfigOf X _ None] =>
           pose proof (saslSslTlsConfigOf_outcome w None) as HT;
           destruct (saslSslTlsConfigOf X w None); simpl;
           [| by destruct HT as (? & ? & ?) | done]
       | |- context [tlsConfigOf X _ ?t] =>
           pose proof (tlsConfigOf_outcome w t) as HT;
           destruct (tlsConfigOf X w t); simpl;
           [destruct HT as [-> HT]; simpl in *; rewrite HT | done | done]
       | |- _ => idtac
       end.
  all: destruct sasl as [sasl|]; simpl; repeat case_match; try done.
  all: split; [done | by eauto].
Qed.

(** C6, as the code has it: [toSaramaConfig] returns an error exactly when
    the version string is set and does not parse, or the CA file of the TLS
    section is set and unreadable, or the security protocol is not SASL_SSL
    and the client certificate and client key paths of the TLS section are
    both set and one of the two files is unreadable or the pair is invalid.
    On every other record that has a SASL section whenever its protocol is
    SASL_SSL, it returns a configuration. *)
Theorem toSaramaConfig_fails_iff (w : Ext) (cluster : config.Cluster) :
  ((exists err, toSaramaConfig X w (Some cluster) = Err err)
   <-> failsAsWritten X w cluster = true) /\
  (failsAsWritten X w cluster = false ->
   (config.SecurityProtocol cluster = "SASL_SSL" ->
    is_Some (config.SASL_ cluster)) ->
   exists cfg, toSaramaConfig X w (Some cluster) = Ok cfg).
Proof.
  pose proof (toSaramaConfig_outcome w cluster) as H.
  destruct (toSaramaConfig X w (Some cluster)) as [cfg|err|].
  - destruct H as [H _]. split; [split|]; [intros [? ?]; done | congruence | eauto].
  - split; [split|]; [done | eauto | congruence].
  - destruct H as (H & Hp & Hs). split; [split|].
    + intros [? ?]; done.
    + congruence.
    + intros _ Hg. destruct (Hg Hp) as [? ?]. congruence.
Qed.

(** *** Errors of the translation *)

Lemma tlsConfigOf_Err (w : Ext) (t : config.TLS) (err : error) :
  tlsConfigOf X w t = Err err ->
  (exists u, ReadFile X w (config.Cafile t) = Failure u /\
     err = Errorf ("Unable to read Cafile :" +:+ Error u))
  \/ (exists u, ReadFile X w (config.Clientfile t) = Failure u /\
        err = Errorf ("Unable to read Clientfile :" +:+ Error u))
  \/ (exists u, ReadFile X w (config.Clientkeyfile t) = Failure u /\
        err = Errorf ("Unable to read Clientkeyfile :" +:+ Error u))
  \/ (exists clientCert clientKey u,
        ReadFile X w (config.Clientfile t) = Success clientCert /\
        ReadFile X w (config.Clientkeyfile t) = Success clientKey /\
        X509KeyPair X clientCert clientKey = Failure u /\
        err = Errorf ("Unable to creatre KeyPair: " +:+ Error u)).
Proof.
  unfold tlsConfigOf, mbind, outcome_bind.
  destruct (nonempty (config.Cafile t)); simpl;
    [destruct (ReadFile X w (config.Cafile t)) as [caCert|u]; simpl;
     [| intros [= <-]; left; by exists u] |].
  all: destruct (nonempty (config.Clientfile t) && nonempty (config.Clientkeyfile t));
    simpl; [|done].
  all: destruct (ReadFile X w (config.Clientfile t)) as [clientCert|u]; simpl;
    [| intros [= <-]; right; left; by exists u].
  all: destruct (ReadFile X w (config.Clientkeyfile t)) as [clientKey|u]; simpl;
    [| intros [= <-]; right; right; left; by exists u].
  all: destruct (X509KeyPair X clientCert clientKey) as [cert|u] eqn:Hpair; simpl;
    [done | intros [= <-]; right; right; right; by exists clientCert, clientKey, u].
Qed.

Lemma saslSslTlsConfigOf_Err (w : Ext) (t : option config.TLS) (err : error) :
  saslSslTlsConfigOf X w t = Err err ->
  exists t', t = Some t' /\ ReadFile X w (config.Cafile t') = Failure err.
Proof.
  unfold saslSslTlsConfigOf. destruct t as [t|]; [|done].
  destruct (nonempty (config.Cafile t)); [|done].
  destruct (ReadFile X w (config.Cafile t)) as [caCert|u] eqn:Hread; [done|].
  intros [= <-]. by exists t.
Qed.

Lemma toSaramaConfig_errors (w : Ext) (cluster : config.Cluster) (err : error) :
  toSaramaConfig X w (Some cluster) = Err err ->
  translationError X w cluster err.
Proof.
  destruct cluster as [name version brokers sasl t proto].
  unfold toSaramaConfig, deref, mbind, outcome_bind; simpl.
  destruct (nonempty version); simpl;
    [destruct (ParseKafkaVersion X version) as [v|u] eqn:Hparse; simpl;
     [| intros [= <-]; by apply err_version] |].
  all: destruct (String.eqb proto "SASL_SSL") eqn:Hproto;
    [apply eqb_SASL_SSL in Hproto | apply String.eqb_neq in Hproto]; simpl.
  all: destruct t as [t|]; simpl.
  all: lazymatch goal with
       | |- context [saslSslTlsConfigOf X _ ?t] =>
           pose proof (saslSslTlsConfigOf_Err w t) as HT;
           destruct (saslSslTlsConfigOf X w t) as [tc|u|]; simpl;
           [clear HT
           | intros [= <-]; destruct (HT u eq_refl) as (t' & Ht' & Hread);
             by eapply err_cafile_sasl_ssl
           | done]
       | |- context [tlsConfigOf X _ ?t] =>
           pose proof (tlsConfigOf_Err w t) as HT;
           destruct (tlsConfigOf X w t) as [tc|u|]; simpl;
           [clear HT
           | intros [= <-];
             destruct (HT u eq_refl)
               as [(u' & Hr & ->) | [(u' & Hr & ->) | [(u' & Hr & ->)
                  | (cc & ck & u' & Hc & Hk & Hp & ->)]]];
             [by eapply err_cafile | by eapply err_clientfile
             | by eapply err_clientkeyfile | by eapply err_keypair]
           | done]
       | |- _ => idtac
       end.
  all: destruct sasl as [sasl|]; simpl; repeat case_match; done.
Qed.

End translation.

(** *** The translation in the concrete world *)

Lemma toSaramaConfig_field_by_field_witness :
  (sarama.SASL_Enable (sarama.Net_SASL demo.prodConfig) = true
     <-> is_Some (config.SASL_ demo.prod)) /\
  (forall sasl, config.SASL_ demo.prod = Some sasl ->
     sarama.SASL_User (sarama.Net_SASL demo.prodConfig) = config.Username sasl /\
     sarama.SASL_Password (sarama.Net_SASL demo.prodConfig) = config.Password sasl) /\
  (sarama.TLS_Enable (sarama.Net_TLS demo.prodConfig) = true
     <-> (is_Some (config.TLS_ demo.prod)
          \/ config.SecurityProtocol demo.prod = "SASL_SSL")) /\
  (if nonempty (config.Version demo.prod)
   then ParseKafkaVersion demo.X (config.Version demo.prod)
        = Success (sarama.Version demo.prodConfig)
   else sarama.Version demo.prodConfig = sarama.V1_1_0_0).
Proof.
  apply (toSaramaConfig_field_by_field demo.X demo.w0 demo.prod demo.prodConfig);
    reflexivity.
Defined.

(** C6 as the specification states it fails on [demo.certOnly]: a client
    certificate path is set and the file cannot be read, yet
    [toSaramaConfig] returns a configuration, because line 183 reads the
    client files only when both paths are set. *)
Lemma toSaramaConfig_fails_not_as_specified :
  ~ ((exists err, toSaramaConfig demo.X demo.w0 (Some demo.certOnly) = Err err)
     <-> failsAsSpecified demo.X demo.w0 demo.certOnly = true).
Proof.
  intros [_ H]. destruct (H eq_refl) as [err Herr]. discriminate Herr.
Qed.

Lemma toSaramaConfig_fails_iff_witness :
  failsAsWritten demo.X demo.w0 demo.prod = false /\
  (config.SecurityProtocol demo.prod = "SASL_SSL" ->
   is_Some (config.SASL_ demo.prod)) /\
  exists cfg, toSaramaConfig demo.X demo.w0 (Some demo.prod) = Ok cfg.
Proof.
  assert (Hg : config.SecurityProtocol demo.prod = "SASL_SSL" ->
               is_Some (config.SASL_ demo.prod)) by (intros _; eexists; reflexivity).
  split; [reflexivity | split; [exact Hg |]].
  exact (proj2 (toSaramaConfig_fails_iff demo.X demo.w0 demo.prod) eq_refl Hg).
Defined.

(** ** The connection manager *)
Section manager.

Context {Ext Client ClusterAdmin Broker OffsetRequest OffsetResponse : Type}.
Variable X : Externals Ext Client ClusterAdmin Broker OffsetRequest OffsetResponse.

Implicit Types c : @ConnManager Ext Client Broker OffsetRequest.
Implicit Types cluster name : string.

Ltac unfold_methods :=
  unfold GetClient, GetAdminClient, GetConfig, Connect, GetAvailableOffsets,
    orReturn, readConfig, call, lift, store, deref;
  unfold mbind, M_bind, mret, M_ret; simpl.

(** *** The loop over the clusters *)

Lemma rangeClusters_from (clusters : list config.Cluster) cluster
    (cl0 : option config.Cluster) :
  Forall (fun cx => config.Name cx <> cluster) clusters ->
  fold_left
    (fun cl cx => if String.eqb (config.Name cx) cluster then Some cx else cl)
    clusters cl0 = cl0.
Proof.
  intros H. revert cl0. induction H as [|cx l Hcx _ IH]; intros cl0; simpl.
  - reflexivity.
  - apply String.eqb_neq in Hcx. rewrite Hcx. apply IH.
Qed.

Lemma rangeClusters_none (clusters : list config.Cluster) cluster :
  Forall (fun cx => config.Name cx <> cluster) clusters ->
  rangeClusters clusters cluster = None.
Proof. apply rangeClusters_from. Qed.

Lemma rangeClusters_last (before after : list config.Cluster)
    (cl : config.Cluster) cluster :
  config.Name cl = cluster ->
  Forall (fun cx => config.Name cx <> cluster) after ->
  rangeClusters (before ++ cl :: after) cluster = Some cl.
Proof.
  intros Hcl Hafter. unfold rangeClusters.
  rewrite fold_left_app. simpl.
  apply String.eqb_eq in Hcl. rewrite Hcl.
  by apply rangeClusters_from.
Qed.

Lemma rangeClusters_Some (clusters : list config.Cluster) cluster
    (cl : config.Cluster) :
  rangeClusters clusters cluster = Some cl ->
  config.Name cl = cluster /\ cl ∈ clusters.
Proof.
  unfold rangeClusters.
  assert (G : forall cl0 : option config.Cluster,
             fold_left
               (fun cl cx =>
                  if String.eqb (config.Name cx) cluster then Some cx else cl)
               clusters cl0 = Some cl ->
             cl0 = Some cl \/ (config.Name cl = cluster /\ cl ∈ clusters)).
  { induction clusters as [|cx l IH]; intros cl0; simpl; [by left|].
    intros H. apply IH in H as [H | [H1 H2]].
    - destruct (String.eqb (config.Name cx) cluster) eqn:E; [|by left].
      injection H as ->. apply String.eqb_eq in E. right. split; [done|].
      apply list_elem_of_here.
    - right. split; [done|]. by apply list_elem_of_further. }
  intros H. destruct (G None H) as [?|?]; done.
Qed.

(** *** What each method does, call by call *)

Lemma GetClient_hit c cluster (cl : Client) :
  conns c !! cluster = Some cl -> GetClient X cluster c = (c, Ok cl).
Proof. intros H. unfold GetClient. by rewrite H. Qed.

Lemma GetClient_miss c cluster :
  conns c !! cluster = None ->
  GetClient X cluster c =
  match ReadConfig X (world c) EmptyString with
  | Failure err =>
      (mkConnManager (conns c) (world c) (calls c ++ [EvReadConfig]), Err err)
  | Success configTotal =>
      match rangeClusters (config.Clusters configTotal) cluster with
      | None =>
          (mkConnManager (conns c) (world c) (calls c ++ [EvReadConfig]),
           Err (notFound cluster))
      | Some cl =>
          match toSaramaConfig X (world c) (Some cl) with
          | Ok cfg =>
              let (w', r) := NewClient X (world c) (config.Brokers cl) cfg in
              let evs := [EvReadConfig; EvNewClient (config.Brokers cl) cfg] in
              match r with
              | Success client =>
                  (mkConnManager (<[cluster := client]> (conns c)) w'
                     (calls c ++ evs), Ok client)
              | Failure err =>
                  (mkConnManager (conns c) w' (calls c ++ evs), Err err)
              end
          | Err err =>
              (mkConnManager (conns c) (world c) (calls c ++ [EvReadConfig]),
               Err err)
          | Panic =>
              (mkConnManager (conns c) (world c) (calls c ++ [EvReadConfig]),
               Panic)
          end
      end
  end.
Proof.
  intros H. unfold_methods. rewrite H.
  destruct (ReadConfig X (world c) EmptyString) as [configTotal|err]; simpl; [|done].
  destruct (rangeClusters _ cluster) as [cl|]; simpl; [|done].
  destruct (toSaramaConfig X (world c) (Some cl)) as [cfg|err|]; simpl; [|done|done].
  destruct (NewClient X (world c) (config.Brokers cl) cfg) as [w' [client|err]];
    simpl; by rewrite <- app_assoc.
Qed.

Lemma GetConfig_run c cluster :
  GetConfig X cluster c =
  match ReadConfig X (world c) EmptyString with
  | Failure err =>
      (mkConnManager (conns c) (world c) (calls c ++ [EvReadConfig]), Err err)
  | Success configTotal =>
      (mkConnManager (conns c) (world c) (calls c ++ [EvReadConfig]),
       toSaramaConfig X (world c) (clusterOrActive X configTotal cluster))
  end.
Proof.
  unfold_methods.
  destruct (ReadConfig X (world c) EmptyString) as [configTotal|err]; simpl; [|done].
  by destruct (toSaramaConfig X (world c) _).
Qed.

Lemma GetAdminClient_hit c cluster (cl : Client) :
  conns c !! cluster = Some cl ->
  GetAdminClient X cluster c =
  let (w', r) := NewClusterAdminFromClient X (world c) cl in
  (mkConnManager (conns c) w' (calls c ++ [EvNewClusterAdmin cl]), returned r).
Proof.
  intros H. unfold_methods. rewrite H.
  by destruct (NewClusterAdminFromClient X (world c) cl) as [w' [adm|err]].
Qed.

Lemma GetAdminClient_miss c cluster :
  conns c !! cluster = None ->
  GetAdminClient X cluster c =
  match ReadConfig X (world c) EmptyString with
  | Failure err =>
      (mkConnManager (conns c) (world c) (calls c ++ [EvReadConfig]), Err err)
  | Success configTotal =>
      match clusterOrActive X configTotal cluster with
      | None =>
          (mkConnManager (conns c) (world c) (calls c ++ [EvReadConfig]), Panic)
      | Some cl =>
          match toSaramaConfig X (world c) (Some cl) with
          | Ok cfg =>
              let (w', r) := NewClient X (world c) (config.Brokers cl) cfg in
              let evs := [EvReadConfig; EvNewClient (config.Brokers cl) cfg] in
              match r with
              | Success client =>
                  let (w'', r') := NewClusterAdminFromClient X w' client in
                  (mkConnManager (<[cluster := client]> (conns c)) w''
                     (calls c ++ evs ++ [EvNewClusterAdmin client]),
                   returned r')
              | Failure err =>
                  (mkConnManager (conns c) w' (calls c ++ evs), Err err)
              end
          | Err err =>
              (mkConnManager (conns c) (world c) (calls c ++ [EvReadConfig]),
               Err err)
          | Panic =>
              (mkConnManager (conns c) (world c) (calls c ++ [EvReadConfig]),
               Panic)
          end
      end
  end.
Proof.
  intros H. unfold_methods. rewrite H.
  destruct (ReadConfig X (world c) EmptyString) as [configTotal|err]; simpl; [|done].
  destruct (clusterOrActive X configTotal cluster) as [cl|]; simpl; [|done].
  destruct (toSaramaConfig X (world c) (Some cl)) as [cfg|err|]; simpl; [|done|done].
  destruct (NewClient X (world c) (config.Brokers cl) cfg) as [w' [client|err]];
    simpl; [|by rewrite <- app_assoc].
  destruct (NewClusterAdminFromClient X w' client) as [w'' [adm|err]];
    simpl; by rewrite <- !app_assoc.
Qed.

Lemma Connect_run c cluster :
  Connect X cluster c =
  (fst (GetAdminClient X cluster c),
   _ ← snd (GetAdminClient X cluster c); Ok tt).
Proof.
  unfold Connect, mbind at 1, M_bind.
  by destruct (GetAdminClient X cluster c) as [c' [adm|err|]].
Qed.

Lemma GetAvailableOffsets_run c (broker : Broker) cluster (req : OffsetRequest) :
  GetAvailableOffsets X broker cluster req c =
  let rpc := EvGetAvailableOffsets broker req in
  let (w1, r1) := Broker_GetAvailableOffsets X (world c) broker req in
  match r1 with
  | Success resp => (mkConnManager (conns c) w1 (calls c ++ [rpc]), Ok resp)
  | Failure _ =>
      let w2 := Broker_Close X w1 broker in
      let evs := [rpc; EvClose broker; EvReadConfig] in
      match ReadConfig X w2 EmptyString with
      | Failure err => (mkConnManager (conns c) w2 (calls c ++ evs), Err err)
      | Success configTotal =>
          match toSaramaConfig X w2 (clusterOrActive X configTotal cluster) with
          | Ok cfg =>
              let w3 := Broker_Open X w2 broker cfg in
              let (w4, r2) := Broker_GetAvailableOffsets X w3 broker req in
              (mkConnManager (conns c) w4
                 (calls c ++ evs ++ [EvOpen broker cfg; rpc]),
               returned r2)
          | Err err => (mkConnManager (conns c) w2 (calls c ++ evs), Err err)
          | Panic => (mkConnManager (conns c) w2 (calls c ++ evs), Panic)
          end
      end
  end.
Proof.
  unfold GetAvailableOffsets. unfold mbind at 1, M_bind. unfold call at 1.
  destruct (Broker_GetAvailableOffsets X (world c) broker req) as [w1 [resp|e1]];
    simpl; [done|].
  unfold mbind at 1, M_bind. unfold call at 1. simpl.
  unfold mbind at 1, M_bind. rewrite GetConfig_run. simpl.
  rewrite <- !app_assoc. simpl.
  destruct (ReadConfig X _ EmptyString) as [configTotal|err]; [|done].
  destruct (toSaramaConfig X _ _) as [cfg|err|]; simpl; [|done..].
  unfold_methods.
  destruct (Broker_GetAvailableOffsets X _ broker req) as [w4 [resp|e2]];
    simpl; by rewrite <- !app_assoc.
Qed.

(** *** Resolution of the cluster name *)

(** C4: when [GetClient] loads the configuration (the name is not in the
    cache and the configuration can be read), a name that no cluster has
    gives an error whose message contains the name, and no client; a name
    that some cluster has gives what the last cluster of that name gives:
    its translation, and a connection to its brokers. *)
Theorem GetClient_resolves_by_name c cluster (configTotal : config.Config) :
  conns c !! cluster = None ->
  ReadConfig X (world c) EmptyString = Success configTotal ->
  (Forall (fun cx => config.Name cx <> cluster) (config.Clusters configTotal) ->
   exists err,
     GetClient X cluster c =
       (mkConnManager (conns c) (world c) (calls c ++ [EvReadConfig]), Err err)
     /\ exists pre post, Error err = pre +:+ cluster +:+ post) /\
  (forall (before after : list config.Cluster) (cl : config.Cluster),
     config.Clusters configTotal = before ++ cl :: after ->
     config.Name cl = cluster ->
     Forall (fun cx => config.Name cx <> cluster) after ->
     GetClient X cluster c =
       match toSaramaConfig X (world c) (Some cl) with
       | Ok cfg =>
           let (w', r) := NewClient X (world c) (config.Brokers cl) cfg in
           let evs := [EvReadConfig; EvNewClient (config.Brokers cl) cfg] in
           match r with
           | Success client =>
               (mkConnManager (<[cluster := client]> (conns c)) w'
                  (calls c ++ evs), Ok client)
           | Failure err =>
               (mkConnManager (conns c) w' (calls c ++ evs), Err err)
           end
       | Err err =>
           (mkConnManager (conns c) (world c) (calls c ++ [EvReadConfig]),
            Err err)
       | Panic =>
           (mkConnManager (conns c) (world c) (calls c ++ [EvReadConfig]),
            Panic)
       end).
Proof.
  intros Hmiss Hcfg. rewrite (GetClient_miss _ _ Hmiss), Hcfg. split.
  - intros Hnone. rewrite (rangeClusters_none _ _ Hnone).
    exists (notFound cluster). split; [done|].
    exists ("Cluster " +:+ dquote), (dquote +:+ " not found."). reflexivity.
  - intros before after cl Hsplit Hname Hafter.
    by rewrite Hsplit, (rangeClusters_last _ _ _ _ Hname Hafter).
Qed.

Lemma clusterOrActive_unknown (configTotal : config.Config) cluster :
  cluster = EmptyString
  \/ Forall (fun cx => config.Name cx <> cluster) (config.Clusters configTotal) ->
  clusterOrActive X configTotal cluster = ActiveCluster X configTotal.
Proof.
  unfold clusterOrActive. intros [-> | Hnone]; simpl.
  - by destruct (ActiveCluster X configTotal).
  - rewrite (rangeClusters_none _ _ Hnone).
    by destruct (String.eqb cluster EmptyString), (ActiveCluster X configTotal).
Qed.

(** Lines 88-102 and 119-133: when the configuration can be read and the
    name is empty or is the name of no cluster, [GetConfig] returns what
    the translation of [ActiveCluster()] returns, and [GetAdminClient] (the
    name not being in the cache) goes on with that cluster: it translates
    it and dials its brokers.  Neither checks that there is an active
    cluster: on nil they panic. *)
Theorem unknown_name_falls_back_to_active c cluster
    (configTotal : config.Config) :
  ReadConfig X (world c) EmptyString = Success configTotal ->
  cluster = EmptyString
  \/ Forall (fun cx => config.Name cx <> cluster) (config.Clusters configTotal) ->
  GetConfig X cluster c =
    (mkConnManager (conns c) (world c) (calls c ++ [EvReadConfig]),
     toSaramaConfig X (world c) (ActiveCluster X configTotal)) /\
  (conns c !! cluster = None ->
   GetAdminClient X cluster c =
     match ActiveCluster X configTotal with
     | None =>
         (mkConnManager (conns c) (world c) (calls c ++ [EvReadConfig]), Panic)
     | Some active =>
         match toSaramaConfig X (world c) (Some active) with
         | Ok cfg =>
             let (w', r) := NewClient X (world c) (config.Brokers active) cfg in
             let evs := [EvReadConfig; EvNewClient (config.Brokers active) cfg] in
             match r with
             | Success client =>
                 let (w'', r') := NewClusterAdminFromClient X w' client in
                 (mkConnManager (<[cluster := client]> (conns c)) w''
                    (calls c ++ evs ++ [EvNewClusterAdmin client]),
                  returned r')
             | Failure err =>
                 (mkConnManager (conns c) w' (calls c ++ evs), Err err)
             end
         | Err err =>
             (mkConnManager (conns c) (world c) (calls c ++ [EvReadConfig]),
              Err err)
         | Panic =>
             (mkConnManager (conns c) (world c) (calls c ++ [EvReadConfig]),
              Panic)
         end
     end).
Proof.
  intros Hcfg Hunknown. split.
  - by rewrite GetConfig_run, Hcfg, clusterOrActive_unknown.
  - intros Hmiss.
    by rewrite (GetAdminClient_miss _ _ Hmiss), Hcfg, clusterOrActive_unknown.
Qed.

(** *** The cache *)

Lemma GetClient_conns c cluster c' (o : outcome Client) :
  GetClient X cluster c = (c', o) ->
  conns c' = conns c
  \/ (conns c !! cluster = None /\
      exists client, o = Ok client /\ conns c' = <[cluster := client]> (conns c)).
Proof.
  destruct (conns c !! cluster) as [cl|] eqn:Hlook.
  - rewrite (GetClient_hit _ _ _ Hlook). intros [= <- <-]. by left.
  - rewrite (GetClient_miss _ _ Hlook). intros H.
    cbv zeta in H; repeat case_match; simplify_eq; simpl; eauto.
Qed.

Lemma GetAdminClient_conns c cluster c' (o : outcome ClusterAdmin) :
  GetAdminClient X cluster c = (c', o) ->
  conns c' = conns c
  \/ (conns c !! cluster = None /\
      exists client brokers cfg w' w'' r,
        NewClient X (world c) brokers cfg = (w', Success client) /\
        NewClusterAdminFromClient X w' client = (w'', r) /\
        o = returned r /\
        conns c' = <[cluster := client]> (conns c)).
Proof.
  destruct (conns c !! cluster) as [cl|] eqn:Hlook.
  - rewrite (GetAdminClient_hit _ _ _ Hlook). intros H.
    cbv zeta in H; repeat case_match; simplify_eq; simpl; eauto.
  - rewrite (GetAdminClient_miss _ _ Hlook). intros H.
    cbv zeta in H; repeat case_match; simplify_eq; simpl; eauto 12.
Qed.

Lemma entry_kept (m m' : gmap string Client) cluster k (v : Client) :
  m !! k = Some v ->
  m' = m \/ (m !! cluster = None /\ exists client, m' = <[cluster := client]> m) ->
  m' !! k = Some v.
Proof.
  intros Hk [-> | (Hmiss & client & ->)]; [done|].
  rewrite lookup_insert_ne; [done | congruence].
Qed.

Lemma after_keeps_entries c (op : Op Broker OffsetRequest) k (v : Client) :
  conns c !! k = Some v -> conns (after X op c) !! k = Some v.
Proof.
  intros Hk. destruct op as [cluster|cluster|broker cluster req|cluster|cluster];
    simpl.
  - rewrite Connect_run. simpl.
    destruct (GetAdminClient X cluster c) as [c' o] eqn:E. simpl.
    apply (entry_kept _ _ cluster _ _ Hk).
    destruct (GetAdminClient_conns _ _ _ _ E)
      as [?|(? & client & ? & ? & ? & ? & ? & ? & ? & ? & ?)]; eauto.
  - destruct (GetClient X cluster c) as [c' o] eqn:E. simpl.
    apply (entry_kept _ _ cluster _ _ Hk).
    destruct (GetClient_conns _ _ _ _ E) as [?|(? & client & ? & ?)]; eauto.
  - rewrite GetAvailableOffsets_run. simpl. by repeat case_match.
  - rewrite GetConfig_run. by repeat case_match.
  - destruct (GetAdminClient X cluster c) as [c' o] eqn:E. simpl.
    apply (entry_kept _ _ cluster _ _ Hk).
    destruct (GetAdminClient_conns _ _ _ _ E)
      as [?|(? & client & ? & ? & ? & ? & ? & ? & ? & ? & ?)]; eauto.
Qed.

Lemma afterAll_keeps_entries (ops : list (Op Broker OffsetRequest)) c k
    (v : Client) :
  conns c !! k = Some v -> conns (afterAll X ops c) !! k = Some v.
Proof.
  unfold afterAll. revert c.
  induction ops as [|op ops IH]; intros c Hk; simpl; [done|].
  apply IH. by apply after_keeps_entries.
Qed.

Lemma GetClient_dials c cluster (configTotal : config.Config)
    (cl : config.Cluster) (cfg : sarama.Config) (w' : Ext) (client : Client) :
  conns c !! cluster = None ->
  ReadConfig X (world c) EmptyString = Success configTotal ->
  rangeClusters (config.Clusters configTotal) cluster = Some cl ->
  toSaramaConfig X (world c) (Some cl) = Ok cfg ->
  NewClient X (world c) (config.Brokers cl) cfg = (w', Success client) ->
  GetClient X cluster c
  = (mkConnManager (<[cluster := client]> (conns c)) w'
       (calls c ++ [EvReadConfig; EvNewClient (config.Brokers cl) cfg]),
     Ok client).
Proof.
  intros Hmiss Hcfg Hcl Htr Hdial.
  by rewrite (GetClient_miss _ _ Hmiss), Hcfg, Hcl, Htr, Hdial.
Qed.

Lemma GetAdminClient_dials c cluster (configTotal : config.Config)
    (cl : config.Cluster) (cfg : sarama.Config) (w' w'' : Ext) (client : Client)
    (r : result ClusterAdmin) :
  conns c !! cluster = None ->
  ReadConfig X (world c) EmptyString = Success configTotal ->
  clusterOrActive X configTotal cluster = Some cl ->
  toSaramaConfig X (world c) (Some cl) = Ok cfg ->
  NewClient X (world c) (config.Brokers cl) cfg = (w', Success client) ->
  NewClusterAdminFromClient X w' client = (w'', r) ->
  GetAdminClient X cluster c
  = (mkConnManager (<[cluster := client]> (conns c)) w''
       (calls c ++ [EvReadConfig; EvNewClient (config.Brokers cl) cfg;
                    EvNewClusterAdmin client]),
     returned r).
Proof.
  intros Hmiss Hcfg Hcl Htr Hdial Hadm.
  by rewrite (GetAdminClient_miss _ _ Hmiss), Hcfg, Hcl, Htr, Hdial, Hadm.
Qed.

Lemma later_calls_hit c cluster (cl : Client) :
  conns c !! cluster = Some cl ->
  forall ops : list (Op Broker OffsetRequest),
    conns (afterAll X ops c) !! cluster = Some cl /\
    GetClient X cluster (afterAll X ops c) = (afterAll X ops c, Ok cl) /\
    calls (fst (GetAdminClient X cluster (afterAll X ops c)))
    = calls (afterAll X ops c) ++ [EvNewClusterAdmin cl].
Proof.
  intros Hcl ops.
  pose proof (afterAll_keeps_entries ops _ _ _ Hcl) as Hkept.
  split; [done | split; [by apply GetClient_hit|]].
  rewrite (GetAdminClient_hit _ _ _ Hkept).
  by destruct (NewClusterAdminFromClient X _ cl).
Qed.

(** C9, as the code has it.  [GetClient]: the cache after the call is the
    cache before it with the returned client under the name, when a client
    is returned, and the cache before it otherwise; an entry is new only
    when the name was not in the cache.  [GetAdminClient]: for a name in
    the cache, the cache stays as it is; for a name not in the cache, as
    soon as the connection attempt succeeds the connection is put under the
    name, and the call returns what making the admin handle on it returns,
    an error included; the cache changes in no other way.  No call of any
    method removes or replaces an entry. *)
Theorem cache_only_grows c cluster :
  (forall c' (o : outcome Client),
     GetClient X cluster c = (c', o) ->
     conns c' = match o with
                | Ok client => <[cluster := client]> (conns c)
                | _ => conns c
                end /\
     (conns c' = conns c
      \/ (conns c !! cluster = None /\
          exists client,
            o = Ok client /\ conns c' = <[cluster := client]> (conns c)))) /\
  (forall cl : Client,
     conns c !! cluster = Some cl ->
     conns (fst (GetAdminClient X cluster c)) = conns c) /\
  (forall (configTotal : config.Config) (cl : config.Cluster)
          (cfg : sarama.Config) (w' w'' : Ext) (client : Client)
          (r : result ClusterAdmin),
     conns c !! cluster = None ->
     ReadConfig X (world c) EmptyString = Success configTotal ->
     clusterOrActive X configTotal cluster = Some cl ->
     toSaramaConfig X (world c) (Some cl) = Ok cfg ->
     NewClient X (world c) (config.Brokers cl) cfg = (w', Success client) ->
     NewClusterAdminFromClient X w' client = (w'', r) ->
     GetAdminClient X cluster c
     = (mkConnManager (<[cluster := client]> (conns c)) w''
          (calls c ++ [EvReadConfig; EvNewClient (config.Brokers cl) cfg;
                       EvNewClusterAdmin client]),
        returned r)) /\
  (forall c' (o : outcome ClusterAdmin),
     GetAdminClient X cluster c = (c', o) ->
     conns c' = conns c
     \/ (conns c !! cluster = None /\
         exists client brokers cfg w' w'' r,
           NewClient X (world c) brokers cfg = (w', Success client) /\
           NewClusterAdminFromClient X w' client = (w'', r) /\
           o = returned r /\
           conns c' = <[cluster := client]> (conns c))) /\
  (forall (op : Op Broker OffsetRequest) k (v : Client),
     conns c !! k = Some v -> conns (after X op c) !! k = Some v).
Proof.
  split; [|split; [|split; [|split]]].
  - intros c' o H. split; [|by apply GetClient_conns].
    destruct (conns c !! cluster) as [cl|] eqn:Hlook.
    + rewrite (GetClient_hit _ _ _ Hlook) in H. injection H as <- <-.
      by rewrite insert_id.
    + destruct (GetClient_conns _ _ _ _ H) as [Hsame|(_ & client & -> & Hins)];
        [|done].
      rewrite (GetClient_miss _ _ Hlook) in H. cbv zeta in H.
      repeat case_match; simplify_eq; simpl in *; done.
  - intros cl Hlook. rewrite (GetAdminClient_hit _ _ _ Hlook).
    by destruct (NewClusterAdminFromClient X (world c) cl).
  - intros *. apply GetAdminClient_dials.
  - apply GetAdminClient_conns.
  - intros op k v. apply after_keeps_entries.
Qed.

(** C1, as the code has it.  For a name that is not in the cache: a call
    of [GetClient] whose connection attempt succeeds (the configuration
    loads, a cluster has the name, it translates) reads the configuration
    once, makes one connection, puts it in the cache under the name and
    returns it; a call of [GetAdminClient] whose connection attempt succeeds
    does the same and then makes the admin handle, and the connection stays
    in the cache also when that last step fails and the call returns an
    error; a call that returns a client, or a handle, has done just that.
    For a name that is in the cache, however it came there: after any
    further calls of any methods that connection is still the one under
    the name, [GetClient] for the name returns it and does nothing else
    (the manager, the world and the record of calls are as before the
    call), and [GetAdminClient] for the name only makes an admin handle on
    it. *)
Theorem one_connection_per_name c cluster :
  (forall (configTotal : config.Config) (cl : config.Cluster)
          (cfg : sarama.Config) (w' : Ext) (client : Client),
     conns c !! cluster = None ->
     ReadConfig X (world c) EmptyString = Success configTotal ->
     rangeClusters (config.Clusters configTotal) cluster = Some cl ->
     toSaramaConfig X (world c) (Some cl) = Ok cfg ->
     NewClient X (world c) (config.Brokers cl) cfg = (w', Success client) ->
     GetClient X cluster c
     = (mkConnManager (<[cluster := client]> (conns c)) w'
          (calls c ++ [EvReadConfig; EvNewClient (config.Brokers cl) cfg]),
        Ok client)) /\
  (forall (configTotal : config.Config) (cl : config.Cluster)
          (cfg : sarama.Config) (w' w'' : Ext) (client : Client)
          (r : result ClusterAdmin),
     conns c !! cluster = None ->
     ReadConfig X (world c) EmptyString = Success configTotal ->
     clusterOrActive X configTotal cluster = Some cl ->
     toSaramaConfig X (world c) (Some cl) = Ok cfg ->
     NewClient X (world c) (config.Brokers cl) cfg = (w', Success client) ->
     NewClusterAdminFromClient X w' client = (w'', r) ->
     GetAdminClient X cluster c
     = (mkConnManager (<[cluster := client]> (conns c)) w''
          (calls c ++ [EvReadConfig; EvNewClient (config.Brokers cl) cfg;
                       EvNewClusterAdmin client]),
        returned r)) /\
  (forall c1 (cl : Client),
     conns c !! cluster = None ->
     GetClient X cluster c = (c1, Ok cl) ->
     conns c1 = <[cluster := cl]> (conns c) /\
     exists brokers cfg,
       calls c1 = calls c ++ [EvReadConfig; EvNewClient brokers cfg]) /\
  (forall c1 (adm : ClusterAdmin),
     conns c !! cluster = None ->
     GetAdminClient X cluster c = (c1, Ok adm) ->
     exists cl : Client,
       conns c1 = <[cluster := cl]> (conns c) /\
       exists brokers cfg,
         calls c1 = calls c ++ [EvReadConfig; EvNewClient brokers cfg;
                                EvNewClusterAdmin cl]) /\
  (forall cl : Client,
     conns c !! cluster = Some cl ->
     forall ops : list (Op Broker OffsetRequest),
       conns (afterAll X ops c) !! cluster = Some cl /\
       GetClient X cluster (afterAll X ops c) = (afterAll X ops c, Ok cl) /\
       calls (fst (GetAdminClient X cluster (afterAll X ops c)))
       = calls (afterAll X ops c) ++ [EvNewClusterAdmin cl]).
Proof.
  split; [|split; [|split; [|split]]].
  - intros *. apply GetClient_dials.
  - intros *. apply GetAdminClient_dials.
  - intros c1 cl Hmiss. rewrite (GetClient_miss _ _ Hmiss). intros H.
    cbv zeta in H. repeat case_match; simplify_eq; simpl; eauto.
  - intros c1 adm Hmiss. rewrite (GetAdminClient_miss _ _ Hmiss). intros H.
    cbv zeta in H. repeat case_match; simplify_eq; simpl; eauto 8.
  - intros cl. apply later_calls_hit.
Qed.

(** *** Retries *)








(** *** Errors *)

(** C3, as the code has it: an error of [toSaramaConfig] is a new error
    whose message is a prefix followed by the message of the underlying
    error, except for the CA file of a SASL_SSL cluster, whose read error
    is returned as it is.  [GetConfig], [GetClient] and [GetAdminClient]
    return an error exactly when one of their steps fails, and the error
    is, unchanged, the error of that step: of the configuration loader; or
    else of [toSaramaConfig] on the cluster that was resolved; or else of
    the connection attempt to its brokers; or else, for [GetAdminClient],
    of the making of the admin handle; and [GetClient] returns its
    not-found error exactly when the configuration loads and no cluster
    has the name.  For a name in the cache, [GetClient] returns no error,
    and [GetAdminClient] the error of the making of the admin handle. *)
Theorem errors_are_propagated :
  (forall (w : Ext) (cl : config.Cluster) (err : error),
     toSaramaConfig X w (Some cl) = Err err ->
     translationError X w cl err) /\
  (forall c cluster (err : error),
     snd (GetConfig X cluster c) = Err err
     <-> (ReadConfig X (world c) EmptyString = Failure err
          \/ exists configTotal,
               ReadConfig X (world c) EmptyString = Success configTotal /\
               toSaramaConfig X (world c)
                 (clusterOrActive X configTotal cluster) = Err err)) /\
  (forall c cluster (cached : Client),
     conns c !! cluster = Some cached ->
     snd (GetClient X cluster c) = Ok cached /\
     forall err,
       snd (GetAdminClient X cluster c) = Err err
       <-> exists w',
             NewClusterAdminFromClient X (world c) cached = (w', Failure err)) /\
  (forall c cluster (err : error),
     conns c !! cluster = None ->
     snd (GetClient X cluster c) = Err err
     <-> (ReadConfig X (world c) EmptyString = Failure err
          \/ exists configTotal,
               ReadConfig X (world c) EmptyString = Success configTotal /\
               ((rangeClusters (config.Clusters configTotal) cluster = None /\
                 err = notFound cluster)
                \/ exists cl,
                     rangeClusters (config.Clusters configTotal) cluster
                     = Some cl /\
                     (toSaramaConfig X (world c) (Some cl) = Err err
                      \/ exists cfg w',
                           toSaramaConfig X (world c) (Some cl) = Ok cfg /\
                           NewClient X (world c) (config.Brokers cl) cfg
                           = (w', Failure err))))) /\
  (forall c cluster (err : error),
     conns c !! cluster = None ->
     snd (GetAdminClient X cluster c) = Err err
     <-> (ReadConfig X (world c) EmptyString = Failure err
          \/ exists configTotal cl,
               ReadConfig X (world c) EmptyString = Success configTotal /\
               clusterOrActive X configTotal cluster = Some cl /\
               (toSaramaConfig X (world c) (Some cl) = Err err
                \/ exists cfg w',
                     toSaramaConfig X (world c) (Some cl) = Ok cfg /\
                     (NewClient X (world c) (config.Brokers cl) cfg
                      = (w', Failure err)
                      \/ exists client w'',
                           NewClient X (world c) (config.Brokers cl) cfg
                           = (w', Success client) /\
                           NewClusterAdminFromClient X w' client
                           = (w'', Failure err))))).
Proof.
  split; [|split; [|split; [|split]]].
  - apply toSaramaConfig_errors.
  - intros c cluster err. rewrite GetConfig_run.
    destruct (ReadConfig X (world c) EmptyString) as [configTotal|e]; simpl.
    + split.
      * intros H. right. by exists configTotal.
      * intros [H | (ct & [= <-] & H)]; done.
    + split.
      * intros [= <-]. by left.
      * intros [[= <-] | (ct & H & _)]; done.
  - intros c cluster cached Hlook. split.
    + by rewrite (GetClient_hit _ _ _ Hlook).
    + intros err. rewrite (GetAdminClient_hit _ _ _ Hlook).
      destruct (NewClusterAdminFromClient X (world c) cached) as [w' [adm|e]];
        simpl; split.
      * done.
      * intros [w1 H]. done.
      * intros [= <-]. by exists w'.
      * intros [w1 [= _ <-]]. done.
  - intros c cluster err Hmiss. rewrite (GetClient_miss _ _ Hmiss).
    destruct (ReadConfig X (world c) EmptyString) as [configTotal|e]; simpl.
    2: { split; [intros [= <-]; by left | intros [[= <-] | (ct & H & _)]; done]. }
    destruct (rangeClusters _ cluster) as [cl|] eqn:Hcl; simpl.
    2: { split.
         - intros [= <-]. right. exists configTotal. split; [done|]. by left.
         - intros [H | (ct & [= <-] & [[_ ->] | (cl & H & _)])];
             simplify_eq; try done; congruence. }
    destruct (toSaramaConfig X (world c) (Some cl)) as [cfg|e|] eqn:Htr; simpl.
    + destruct (NewClient X (world c) (config.Brokers cl) cfg)
        as [w' [client|e]] eqn:Hdial; simpl.
      * split; [done|].
        intros [H | (ct & [= <-] & [[H _] | (cl' & Hcl' & [H | (cfg' & w1 & H1 & H2)])])];
          simplify_eq; try done; congruence.
      * split.
        -- intros [= <-]. right. exists configTotal. split; [done|]. right.
           exists cl. split; [done|]. right. by exists cfg, w'.
        -- intros [H | (ct & [= <-] & [[H _] | (cl' & Hcl' & [H | (cfg' & w1 & H1 & H2)])])];
             simplify_eq; try done; congruence.
    + split.
      * intros [= <-]. right. exists configTotal. split; [done|]. right.
        exists cl. split; [done|]. by left.
      * intros [H | (ct & [= <-] & [[H _] | (cl' & Hcl' & [H | (cfg' & w1 & H1 & H2)])])];
          simplify_eq; try done; congruence.
    + split; [done|].
      intros [H | (ct & [= <-] & [[H _] | (cl' & Hcl' & [H | (cfg' & w1 & H1 & H2)])])];
        simplify_eq; try done; congruence.
  - intros c cluster err Hmiss. rewrite (GetAdminClient_miss _ _ Hmiss).
    destruct (ReadConfig X (world c) EmptyString) as [configTotal|e]; simpl.
    2: { split; [intros [= <-]; by left | intros [[= <-] | (ct & cl & H & _)]; done]. }
    destruct (clusterOrActive X configTotal cluster) as [cl|] eqn:Hcl; simpl.
    2: { split; [done|].
         intros [H | (ct & cl & [= <-] & H & _)]; simplify_eq; congruence. }
    destruct (toSaramaConfig X (world c) (Some cl)) as [cfg|e|] eqn:Htr; simpl.
    + destruct (NewClient X (world c) (config.Brokers cl) cfg)
        as [w' [client|e]] eqn:Hdial; simpl.
      * destruct (NewClusterAdminFromClient X w' client) as [w'' [adm|e]]
          eqn:Hadm; simpl.
        -- split; [done|].
           intros [H | (ct & cl' & [= <-] & Hcl' &
                        [H | (cfg' & w1 & H1 & [H2 | (cl2 & w2 & H2 & H3)])])];
             simplify_eq; try done; congruence.
        -- split.
           ++ intros [= <-]. right. exists configTotal, cl.
              split; [done|]. split; [done|]. right. exists cfg, w'.
              split; [done|]. right. by exists client, w''.
           ++ intros [H | (ct & cl' & [= <-] & Hcl' &
                           [H | (cfg' & w1 & H1 & [H2 | (cl2 & w2 & H2 & H3)])])];
                simplify_eq; try done; congruence.
      * split.
        -- intros [= <-]. right. exists configTotal, cl.
           split; [done|]. split; [done|]. right. exists cfg, w'.
           split; [done|]. by left.
        -- intros [H | (ct & cl' & [= <-] & Hcl' &
                        [H | (cfg' & w1 & H1 & [H2 | (cl2 & w2 & H2 & H3)])])];
             simplify_eq; try done; congruence.
    + split.
      * intros [= <-]. right. exists configTotal, cl.
        split; [done|]. split; [done|]. by left.
      * intros [H | (ct & cl' & [= <-] & Hcl' &
                     [H | (cfg' & w1 & H1 & [H2 | (cl2 & w2 & H2 & H3)])])];
          simplify_eq; try done; congruence.
    + split; [done|].
      intros [H | (ct & cl' & [= <-] & Hcl' &
                   [H | (cfg' & w1 & H1 & [H2 | (cl2 & w2 & H2 & H3)])])];
        simplify_eq; try done; congruence.
Qed.

End manager.


(** *** The manager in the concrete world *)

(** C1 as the specification states it fails in [demo.noController]: the
    first call for the name, a [GetAdminClient], returns an error, and has
    put the connection in the cache at line 143; so the first successful
    call for the name, the [GetClient] that follows, creates no connection:
    it returns the stored one and leaves the manager, the world and the
    record of calls as they are. *)
Lemma first_successful_call_creates_nothing :
  conns demo.freshNoController !! "local" = None /\
  GetAdminClient demo.X "local" demo.freshNoController
  = (demo.afterFailedAdmin, Err (LibError "kafka: controller is not available")) /\
  GetClient demo.X "local" demo.afterFailedAdmin
  = (demo.afterFailedAdmin, Ok ["127.0.0.1:9092"]) /\
  count KNewClient (calls (fst (GetClient demo.X "local" demo.afterFailedAdmin)))
  = count KNewClient (calls demo.afterFailedAdmin).
Proof. repeat split; reflexivity. Qed.

Lemma one_connection_per_name_witness :
  GetClient demo.X "local" demo.fresh
  = (mkConnManager (<["local" := ["127.0.0.1:9092"]]> ∅) demo.w0
       [EvReadConfig; EvNewClient ["127.0.0.1:9092"] demo.local2Config],
     Ok ["127.0.0.1:9092"]) /\
  GetAdminClient demo.X "local" demo.freshNoController
  = (mkConnManager (<["local" := ["127.0.0.1:9092"]]> ∅) demo.noController
       [EvReadConfig; EvNewClient ["127.0.0.1:9092"] demo.local2Config;
        EvNewClusterAdmin ["127.0.0.1:9092"]],
     Err (LibError "kafka: controller is not available")) /\
  GetClient demo.X "local" (afterAll demo.X demo.later demo.afterFailedAdmin)
  = (afterAll demo.X demo.later demo.afterFailedAdmin, Ok ["127.0.0.1:9092"]).
Proof.
  split; [|split].
  - exact (proj1 (one_connection_per_name demo.X demo.fresh "local")
             demo.configTotal demo.local2 demo.local2Config demo.w0
             ["127.0.0.1:9092"] eq_refl eq_refl eq_refl eq_refl eq_refl).
  - exact (proj1 (proj2
             (one_connection_per_name demo.X demo.freshNoController "local"))
             demo.configTotal demo.local2 demo.local2Config demo.noController
             demo.noController ["127.0.0.1:9092"]
             (Failure (LibError "kafka: controller is not available"))
             eq_refl eq_refl eq_refl eq_refl eq_refl eq_refl).
  - exact (proj1 (proj2 (proj2 (proj2 (proj2 (proj2
             (one_connection_per_name demo.X demo.afterFailedAdmin "local"))))
             ["127.0.0.1:9092"] eq_refl demo.later))).
Defined.



(** C3 as the specification states it fails on [demo.badVersion]: the error
    that [toSaramaConfig] returns is none of the errors that the underlying
    calls returned; it is a new error made by line 158. *)
Lemma toSaramaConfig_error_not_verbatim :
  ~ (forall err,
       toSaramaConfig demo.X demo.w0 (Some demo.badVersion) = Err err ->
       underlyingError demo.X demo.w0 demo.badVersion err).
Proof.
  intros H.
  destruct (H _ eq_refl) as [Hparse | (t & Ht & _)]; discriminate.
Qed.

Lemma errors_are_propagated_witness :
  translationError demo.X demo.w0 demo.badVersion
    (Errorf "Unable to parse Kafka version: invalid version `two`") /\
  snd (GetClient demo.X "local" demo.freshNoConfig)
  = Err (LibError "yaml: did not find expected key") /\
  snd (GetAdminClient demo.X "local" demo.freshNoController)
  = Err (LibError "kafka: controller is not available").
Proof.
  split; [|split].
  - exact (proj1 (errors_are_propagated demo.X) demo.w0 demo.badVersion _ eq_refl).
  - apply (proj1 (proj2 (proj2 (proj2 (errors_are_propagated demo.X))))
             demo.freshNoConfig "local" _ eq_refl).
    left. reflexivity.
  - apply (proj2 (proj2 (proj2 (proj2 (errors_are_propagated demo.X))))
             demo.freshNoController "local" _ eq_refl).
    right. exists demo.configTotal, demo.local2.
    split; [reflexivity | split; [reflexivity|]].
    right. exists demo.local2Config, demo.noController.
    split; [reflexivity|]. right.
    exists ["127.0.0.1:9092"], demo.noController.
    split; reflexivity.
Defined.

Lemma GetClient_resolves_by_name_witness :
  (exists err,
     GetClient demo.X "nosuch" demo.fresh
     = (mkConnManager ∅ demo.w0 [EvReadConfig], Err err)
     /\ exists pre post, Error err = pre +:+ "nosuch" +:+ post) /\
  GetClient demo.X "local" demo.fresh
  = (mkConnManager (<["local" := ["127.0.0.1:9092"]]> ∅) demo.w0
       [EvReadConfig; EvNewClient ["127.0.0.1:9092"] demo.local2Config],
     Ok ["127.0.0.1:9092"]).
Proof.
  split.
  - apply (proj1 (GetClient_resolves_by_name demo.X demo.fresh
                    "nosuch" demo.configTotal eq_refl eq_refl)).
    repeat constructor; discriminate.
  - apply (proj2 (GetClient_resolves_by_name demo.X demo.fresh
                    "local" demo.configTotal eq_refl eq_refl)
             [demo.local; demo.prod] [] demo.local2 eq_refl eq_refl).
    constructor.
Defined.

Lemma unknown_name_falls_back_to_active_witness :
  GetConfig demo.X "nosuch" demo.fresh
  = (mkConnManager ∅ demo.w0 [EvReadConfig], Ok demo.prodConfig) /\
  GetAdminClient demo.X "nosuch" demo.fresh
  = (mkConnManager (<["nosuch" := config.Brokers demo.prod]> ∅) demo.w0
       [EvReadConfig; EvNewClient (config.Brokers demo.prod) demo.prodConfig;
        EvNewClusterAdmin (config.Brokers demo.prod)],
     Ok (config.Brokers demo.prod)).
Proof.
  assert (Hunknown :
    "nosuch" = EmptyString
    \/ Forall (fun cx => config.Name cx <> "nosuch")
         (config.Clusters demo.configTotal))
    by (right; repeat constructor; discriminate).
  destruct (unknown_name_falls_back_to_active demo.X demo.fresh
              "nosuch" demo.configTotal eq_refl Hunknown) as [HC HA].
  split; [exact HC | exact (HA eq_refl)].
Defined.

(** C9 as the specification states it fails in [demo.noController]:
    [GetAdminClient] returns an error, the one of
    [sarama.NewClusterAdminFromClient] at line 145, and the cache has a new
    entry, put there by line 143. *)
Lemma GetAdminClient_error_changes_cache :
  snd (GetAdminClient demo.X "local" demo.freshNoController)
  = Err (LibError "kafka: controller is not available") /\
  conns demo.freshNoController !! "local" = None /\
  conns (fst (GetAdminClient demo.X "local" demo.freshNoController))
    !! "local"
  = Some ["127.0.0.1:9092"].
Proof. repeat split; reflexivity. Qed.

Lemma cache_only_grows_witness :
  GetAdminClient demo.X "local" demo.freshNoController
  = (mkConnManager (<["local" := ["127.0.0.1:9092"]]> ∅) demo.noController
       [EvReadConfig; EvNewClient ["127.0.0.1:9092"] demo.local2Config;
        EvNewClusterAdmin ["127.0.0.1:9092"]],
     Err (LibError "kafka: controller is not available")) /\
  conns demo.cached !! "local" = Some ["127.0.0.1:9092"] /\
  conns (after demo.X (OpGetAdminClient "local") demo.cached) !! "local"
  = Some ["127.0.0.1:9092"].
Proof.
  split; [|split; [reflexivity|]].
  - exact (proj1 (proj2 (proj2
             (cache_only_grows demo.X demo.freshNoController "local")))
             demo.configTotal demo.local2 demo.local2Config demo.noController
             demo.noController ["127.0.0.1:9092"]
             (Failure (LibError "kafka: controller is not available"))
             eq_refl eq_refl eq_refl eq_refl eq_refl eq_refl).
  - exact (proj2 (proj2 (proj2 (proj2
             (cache_only_grows demo.X demo.cached "local"))))
             (OpGetAdminClient "local") "local" ["127.0.0.1:9092"] eq_refl).
Defined.

(** C7: on a configuration without clusters [ActiveCluster()] returns nil;
    [GetConfig] and [GetAdminClient], called with a name that no cluster
    has, pass that nil pointer to [toSaramaConfig] (lines 98-102 and
    129-133 have no check like the one of line 47), which panics at
    line 155: they do not go on with an active cluster, and they return
    neither a result nor an error. *)
Theorem unknown_name_without_active_cluster_panics :
  ReadConfig demo.X (world demo.freshEmpty) EmptyString
  = Success (config.mkConfig EmptyString []) /\
  ActiveCluster demo.X (config.mkConfig EmptyString []) = None /\
  GetConfig demo.X "local" demo.freshEmpty
  = (mkConnManager ∅ demo.wEmpty [EvReadConfig], Panic) /\
  GetAdminClient demo.X "local" demo.freshEmpty
  = (mkConnManager ∅ demo.wEmpty [EvReadConfig], Panic).
Proof. repeat split; reflexivity. Qed.

(** * More of the code *)

(** ** More of the translation *)
Section translation_more.

Context {Ext Client ClusterAdmin Broker OffsetRequest OffsetResponse : Type}.
Variable X : Externals Ext Client ClusterAdmin Broker OffsetRequest OffsetResponse.

#[local] Arguments tlsConfigOf : simpl never.
#[local] Arguments saslSslTlsConfigOf : simpl never.

(** Case analysis on a run of [toSaramaConfig] that returned a
    configuration, the two TLS helpers kept folded. *)
Ltac translation_cases T1 T2 Hproto :=
  unfold toSaramaConfig, deref, mbind, outcome_bind; simpl;
  match goal with
  | |- context [String.eqb ?proto "SASL_SSL"] =>
      destruct (String.eqb proto "SASL_SSL") eqn:Hproto
  end; simpl;
  match goal with
  | |- context [nonempty ?version] => destruct (nonempty version)
  end; simpl;
  try match goal with
  | |- context [ParseKafkaVersion X ?version] =>
      destruct (ParseKafkaVersion X version)
  end; simpl; try discriminate.

(** Lines 151-153: every configuration that [toSaramaConfig] returns asks
    for producer successes and full metadata, refreshed every minute,
    whatever the record says. *)
Theorem toSaramaConfig_fixed_fields
    (w : Ext) (cluster : config.Cluster) (cfg : sarama.Config) :
  toSaramaConfig X w (Some cluster) = Ok cfg ->
  sarama.Producer_Return_Successes cfg = true /\
  sarama.Metadata_Full cfg = true /\
  sarama.Metadata_RefreshFrequency cfg = time_Minute.
Proof.
  destruct cluster as [name version brokers sasl t proto].
  translation_cases T1 T2 Hproto.
  all: destruct t as [t|]; simpl.
  all: try destruct (tlsConfigOf X w t); try destruct (saslSslTlsConfigOf X w _);
    simpl; try discriminate.
  all: destruct sasl as [sasl|]; simpl; try discriminate.
  all: repeat case_match; intros; simplify_eq; done.
Qed.

(** Lines 223-229: the SCRAM mechanism of the SASL section is looked at
    only when the security protocol is SASL_SSL.  With any other protocol
    the mechanism and the SCRAM client generator stay as
    [sarama.NewConfig] has them, whatever mechanism the record names; with
    SASL_SSL they are set for SCRAM-SHA-512 and SCRAM-SHA-256 and stay as
    they are for every other mechanism. *)
Theorem toSaramaConfig_mechanism
    (w : Ext) (cluster : config.Cluster) (cfg : sarama.Config) :
  toSaramaConfig X w (Some cluster) = Ok cfg ->
  (config.SecurityProtocol cluster <> "SASL_SSL" ->
   sarama.SASL_Mechanism (sarama.Net_SASL cfg)
   = sarama.SASL_Mechanism (sarama.Net_SASL (NewConfig X)) /\
   sarama.SASL_SCRAMClientGeneratorFunc (sarama.Net_SASL cfg)
   = sarama.SASL_SCRAMClientGeneratorFunc (sarama.Net_SASL (NewConfig X))) /\
  (config.SecurityProtocol cluster = "SASL_SSL" ->
   exists sasl,
     config.SASL_ cluster = Some sasl /\
     sarama.SASL_Mechanism (sarama.Net_SASL cfg)
     = (if String.eqb (config.Mechanism sasl) "SCRAM-SHA-512"
        then sarama.SASLTypeSCRAMSHA512
        else if String.eqb (config.Mechanism sasl) "SCRAM-SHA-256"
        then sarama.SASLTypeSCRAMSHA256
        else sarama.SASL_Mechanism (sarama.Net_SASL (NewConfig X))) /\
     sarama.SASL_SCRAMClientGeneratorFunc (sarama.Net_SASL cfg)
     = (if String.eqb (config.Mechanism sasl) "SCRAM-SHA-512"
        then Some sarama.SHA512
        else if String.eqb (config.Mechanism sasl) "SCRAM-SHA-256"
        then Some sarama.SHA256
        else sarama.SASL_SCRAMClientGeneratorFunc
               (sarama.Net_SASL (NewConfig X)))).
Proof.
  destruct cluster as [name version brokers sasl t proto].
  translation_cases T1 T2 Hproto.
  all: destruct t as [t|]; simpl.
  all: try destruct (tlsConfigOf X w t); try destruct (saslSslTlsConfigOf X w _);
    simpl; try discriminate.
  all: destruct sasl as [sasl|]; simpl; try discriminate.
  all: try (destruct (String.eqb (config.Mechanism sasl) "SCRAM-SHA-512") eqn:H512;
            [| destruct (String.eqb (config.Mechanism sasl) "SCRAM-SHA-256")
                 eqn:H256]).
  all: intros [= <-]; simpl.
  all: split; [intros Hne | intros He].
  all: try (apply String.eqb_neq in Hproto; done).
  all: try (apply String.eqb_eq in Hproto; done).
  all: try done.
  all: exists sasl; split; [reflexivity |]; rewrite ?H512, ?H256; done.
Qed.

Lemma tlsConfigOf_Ok (w : Ext) (t : config.TLS) (tc : tls.Config) :
  tlsConfigOf X w t = Ok tc ->
  tls.InsecureSkipVerify tc = config.Insecure t /\
  (if nonempty (config.Cafile t)
   then exists caCert,
          ReadFile X w (config.Cafile t) = Success caCert /\
          tls.RootCAs tc = Some [caCert]
   else tls.RootCAs tc = None) /\
  (if nonempty (config.Clientfile t) && nonempty (config.Clientkeyfile t)
   then exists clientCert clientKey cert,
          ReadFile X w (config.Clientfile t) = Success clientCert /\
          ReadFile X w (config.Clientkeyfile t) = Success clientKey /\
          X509KeyPair X clientCert clientKey = Success cert /\
          tls.Certificates tc = [cert]
   else tls.Certificates tc = []).
Proof.
  unfold tlsConfigOf, mbind, outcome_bind.
  destruct (nonempty (config.Cafile t)); simpl;
    [destruct (ReadFile X w (config.Cafile t)) as [caCert|u] eqn:Hca; simpl;
     [|done] |].
  all: destruct (nonempty (config.Clientfile t) && nonempty (config.Clientkeyfile t));
    simpl.
  all: try (destruct (ReadFile X w (config.Clientfile t)) as [clientCert|u]
              eqn:Hcert; simpl; [|done];
            destruct (ReadFile X w (config.Clientkeyfile t)) as [clientKey|u]
              eqn:Hkey; simpl; [|done];
            destruct (X509KeyPair X clientCert clientKey) as [cert|u] eqn:Hpair;
            simpl; [|done]).
  all: intros [= <-]; simpl.
  all: repeat split; try done.
  all: try (by exists caCert).
  all: by exists clientCert, clientKey, cert.
Qed.

Lemma saslSslTlsConfigOf_Ok (w : Ext) (t : option config.TLS) (tc : tls.Config) :
  saslSslTlsConfigOf X w t = Ok tc ->
  tls.Certificates tc = [] /\
  match t with
  | Some t =>
      tls.InsecureSkipVerify tc = config.Insecure t /\
      (if nonempty (config.Cafile t)
       then exists caCert,
              ReadFile X w (config.Cafile t) = Success caCert /\
              tls.RootCAs tc = Some [caCert]
       else tls.RootCAs tc = None)
  | None => tc = tls.mkConfig false None []
  end.
Proof.
  unfold saslSslTlsConfigOf. destruct t as [t|]; [|by intros [= <-]].
  destruct (nonempty (config.Cafile t));
    [destruct (ReadFile X w (config.Cafile t)) as [caCert|u] eqn:Hca; [|done] |].
  all: intros [= <-]; simpl; repeat split; try done.
  by exists caCert.
Qed.

(** Lines 167-222: the [tls.Config] of a returned configuration.  Without
    a TLS section, it is the one of [sarama.NewConfig] when the protocol is
    not SASL_SSL, and a new one that verifies the server when it is.  With a
    TLS section, it skips verification exactly when the section says
    [Insecure]; its root CAs are the content of the CA file when that path
    is set, and the system's otherwise; and it holds the client key pair
    when the client certificate and key paths are both set and the
    protocol is not SASL_SSL, and no client certificate otherwise: under
    SASL_SSL the client certificate is never loaded. *)
Theorem toSaramaConfig_tls_config
    (w : Ext) (cluster : config.Cluster) (cfg : sarama.Config) :
  toSaramaConfig X w (Some cluster) = Ok cfg ->
  (config.TLS_ cluster = None ->
   sarama.TLS_Config (sarama.Net_TLS cfg)
   = (if String.eqb (config.SecurityProtocol cluster) "SASL_SSL"
      then Some (tls.mkConfig false None [])
      else sarama.TLS_Config (sarama.Net_TLS (NewConfig X)))) /\
  (forall t, config.TLS_ cluster = Some t ->
   exists tc,
     sarama.TLS_Config (sarama.Net_TLS cfg) = Some tc /\
     tls.InsecureSkipVerify tc = config.Insecure t /\
     (if nonempty (config.Cafile t)
      then exists caCert,
             ReadFile X w (config.Cafile t) = Success caCert /\
             tls.RootCAs tc = Some [caCert]
      else tls.RootCAs tc = None) /\
     (if negb (String.eqb (config.SecurityProtocol cluster) "SASL_SSL")
         && (nonempty (config.Clientfile t) && nonempty (config.Clientkeyfile t))
      then exists clientCert clientKey cert,
             ReadFile X w (config.Clientfile t) = Success clientCert /\
             ReadFile X w (config.Clientkeyfile t) = Success clientKey /\
             X509KeyPair X clientCert clientKey = Success cert /\
             tls.Certificates tc = [cert]
      else tls.Certificates tc = [])).
Proof.
  destruct cluster as [name version brokers sasl t proto].
  translation_cases T1 T2 Hproto.
  all: destruct t as [t|]; simpl.
  all: lazymatch goal with
       | |- context [saslSslTlsConfigOf X _ ?t] =>
           pose proof (saslSslTlsConfigOf_Ok w t) as HT;
           destruct (saslSslTlsConfigOf X w t) as [tc|u|]; simpl;
           [specialize (HT tc eq_refl) | done | done]
       | |- context [tlsConfigOf X _ ?t] =>
           pose proof (tlsConfigOf_Ok w t) as HT;
           destruct (tlsConfigOf X w t) as [tc|u|]; simpl;
           [specialize (HT tc eq_refl) | done | done]
       | |- _ => idtac
       end.
  all: destruct sasl as [sasl|]; simpl; try discriminate.
  all: try (destruct (String.eqb (config.Mechanism sasl) "SCRAM-SHA-512");
            [| destruct (String.eqb (config.Mechanism sasl) "SCRAM-SHA-256")]).
  all: intros [= <-]; simpl.
  all: split; [intros Hnone | intros t' [= <-]]; try done.
  all: try (destruct HT as [_ ->]; done).
  all: exists tc; simpl; tauto.
Qed.

(** The order of the checks: a version string that does not parse is
    reported before anything else is looked at, and an unreadable CA file
    before the client files and before line 223 is reached; so both are
    returned as errors also for a SASL_SSL record without a SASL
    section. *)
Theorem toSaramaConfig_first_error (w : Ext) (cluster : config.Cluster) :
  (forall u,
     nonempty (config.Version cluster) = true ->
     ParseKafkaVersion X (config.Version cluster) = Failure u ->
     toSaramaConfig X w (Some cluster)
     = Err (Errorf ("Unable to parse Kafka version: " +:+ Error u))) /\
  (forall t u,
     versionUnparsable X cluster = false ->
     config.TLS_ cluster = Some t ->
     nonempty (config.Cafile t) = true ->
     ReadFile X w (config.Cafile t) = Failure u ->
     toSaramaConfig X w (Some cluster)
     = Err (if String.eqb (config.SecurityProtocol cluster) "SASL_SSL"
            then u
            else Errorf ("Unable to read Cafile :" +:+ Error u))).
Proof.
  destruct cluster as [name version brokers sasl t proto]. split.
  - intros u Hne Hparse. unfold toSaramaConfig, deref, mbind, outcome_bind.
    simpl in *. by rewrite Hne, Hparse.
  - intros t' u Hv [= ->] Hne Hread.
    unfold versionUnparsable in Hv. simpl in Hv.
    unfold toSaramaConfig, tlsConfigOf, saslSslTlsConfigOf, deref, mbind,
      outcome_bind. simpl.
    destruct (nonempty version); simpl in *;
      [destruct (ParseKafkaVersion X version); [|done] |].
    all: rewrite Hne, Hread.
    all: by destruct (String.eqb proto "SASL_SSL").
Qed.

End translation_more.

(** *** More of the translation, in the concrete world *)

Lemma toSaramaConfig_fixed_fields_witness :
  toSaramaConfig demo.X demo.wMutual (Some demo.mutual) = Ok demo.mutualConfig /\
  sarama.Producer_Return_Successes demo.mutualConfig = true /\
  sarama.Metadata_Full demo.mutualConfig = true /\
  sarama.Metadata_RefreshFrequency demo.mutualConfig = time_Minute.
Proof.
  split; [reflexivity|].
  exact (toSaramaConfig_fixed_fields demo.X demo.wMutual demo.mutual
           demo.mutualConfig eq_refl).
Defined.

Lemma toSaramaConfig_mechanism_witness :
  config.SecurityProtocol demo.mutual <> "SASL_SSL" /\
  config.SASL_ demo.mutual
  = Some (config.mkSASL "SCRAM-SHA-256" "bob" "hunter2") /\
  sarama.SASL_Mechanism (sarama.Net_SASL demo.mutualConfig)
  = sarama.SASL_Mechanism (sarama.Net_SASL (NewConfig demo.X)) /\
  sarama.SASL_SCRAMClientGeneratorFunc (sarama.Net_SASL demo.mutualConfig)
  = sarama.SASL_SCRAMClientGeneratorFunc (sarama.Net_SASL (NewConfig demo.X)).
Proof.
  assert (Hne : config.SecurityProtocol demo.mutual <> "SASL_SSL") by discriminate.
  split; [exact Hne | split; [reflexivity|]].
  exact (proj1 (toSaramaConfig_mechanism demo.X demo.wMutual demo.mutual
                  demo.mutualConfig eq_refl) Hne).
Defined.

Lemma toSaramaConfig_tls_config_witness :
  exists tc,
    sarama.TLS_Config (sarama.Net_TLS demo.mutualConfig) = Some tc /\
    tls.InsecureSkipVerify tc = true /\
    (exists caCert,
       ReadFile demo.X demo.wMutual "ca.pem" = Success caCert /\
       tls.RootCAs tc = Some [caCert]) /\
    (exists clientCert clientKey cert,
       ReadFile demo.X demo.wMutual "client.pem" = Success clientCert /\
       ReadFile demo.X demo.wMutual "client.key" = Success clientKey /\
       X509KeyPair demo.X clientCert clientKey = Success cert /\
       tls.Certificates tc = [cert]).
Proof.
  exact (proj2 (toSaramaConfig_tls_config demo.X demo.wMutual demo.mutual
                  demo.mutualConfig eq_refl)
           (config.mkTLS "ca.pem" "client.pem" "client.key" true) eq_refl).
Defined.

Lemma toSaramaConfig_first_error_witness :
  toSaramaConfig demo.X demo.w0 (Some demo.badVersion)
  = Err (Errorf "Unable to parse Kafka version: invalid version `two`") /\
  toSaramaConfig demo.X demo.w0 (Some demo.noSasl)
  = Err (LibError "open missing.pem: no such file or directory").
Proof.
  split.
  - exact (proj1 (toSaramaConfig_first_error demo.X demo.w0 demo.badVersion)
             _ eq_refl eq_refl).
  - exact (proj2 (toSaramaConfig_first_error demo.X demo.w0 demo.noSasl)
             (config.mkTLS "missing.pem" EmptyString EmptyString false) _
             eq_refl eq_refl eq_refl eq_refl).
Defined.

(** ** More of the connection manager *)
Section manager_more.

Context {Ext Client ClusterAdmin Broker OffsetRequest OffsetResponse : Type}.
Variable X : Externals Ext Client ClusterAdmin Broker OffsetRequest OffsetResponse.

Implicit Types c : @ConnManager Ext Client Broker OffsetRequest.
Implicit Types cluster name : string.

(** *** The loop over the clusters, in full *)

Lemma rangeClusters_snoc (clusters : list config.Cluster) (cx : config.Cluster)
    cluster :
  rangeClusters (clusters ++ [cx]) cluster
  = if String.eqb (config.Name cx) cluster then Some cx
    else rangeClusters clusters cluster.
Proof. unfold rangeClusters. by rewrite fold_left_app. Qed.

(** Lines 42-46: the loop finds nothing exactly when no cluster has the
    name, and it finds [cl] exactly when [cl] has the name and no cluster
    after it has: of several clusters of one name, the last one counts. *)
Theorem rangeClusters_finds_the_last (clusters : list config.Cluster) cluster :
  (rangeClusters clusters cluster = None
   <-> Forall (fun cx => config.Name cx <> cluster) clusters) /\
  (forall cl,
     rangeClusters clusters cluster = Some cl
     <-> exists before after,
           clusters = before ++ cl :: after /\
           config.Name cl = cluster /\
           Forall (fun cx => config.Name cx <> cluster) after).
Proof.
  induction clusters as [|cx l [IHnone IHsome]] using rev_ind.
  - split; [by split | intros cl; split; [done|]].
    intros (before & after & H & _). by destruct before.
  - rewrite rangeClusters_snoc.
    destruct (String.eqb (config.Name cx) cluster) eqn:E.
    + apply String.eqb_eq in E. split.
      * split; [done|]. intros H. apply Forall_app in H as [_ H].
        by inversion H.
      * intros cl. split.
        -- intros [= <-]. by exists l, [].
        -- intros (before & after & Hl & _ & Hafter).
           destruct after as [|y after _] using rev_ind.
           ++ apply app_inj_tail in Hl as [_ ->]. done.
           ++ rewrite app_comm_cons, app_assoc in Hl.
              apply app_inj_tail in Hl as [_ ->].
              apply Forall_app in Hafter as [_ Hy]. by inversion Hy.
    + apply String.eqb_neq in E. split.
      * rewrite IHnone. rewrite Forall_app. split; [|tauto].
        intros H. split; [done|]. by constructor.
      * intros cl. rewrite IHsome. split.
        -- intros (before & after & -> & Hcl & Hafter).
           exists before, (after ++ [cx]). split; [by rewrite <- app_assoc|].
           split; [done|]. apply Forall_app. split; [done|]. by constructor.
        -- intros (before & after & Hl & Hcl & Hafter).
           destruct after as [|y after _] using rev_ind.
           ++ apply app_inj_tail in Hl as [_ ->]. done.
           ++ rewrite app_comm_cons, app_assoc in Hl.
              apply app_inj_tail in Hl as [-> ->].
              apply Forall_app in Hafter as [Hafter _].
              by exists before, after.
Qed.

(** *** Failures of the configuration loader *)

(** Lines 36-39, 83-86, 114-117: when the configuration cannot be loaded,
    [GetConfig], and for a name that is not in the cache [GetClient],
    [GetAdminClient] and [Connect], return the loader's error after that
    one call: nothing is dialled, and the cache and the world stay as they
    are.  A name that is in the cache does not need the configuration:
    [GetClient] still returns its connection. *)
Theorem config_failure_is_returned c cluster (err : error) :
  ReadConfig X (world c) EmptyString = Failure err ->
  GetConfig X cluster c
  = (mkConnManager (conns c) (world c) (calls c ++ [EvReadConfig]), Err err) /\
  (conns c !! cluster = None ->
   GetClient X cluster c
   = (mkConnManager (conns c) (world c) (calls c ++ [EvReadConfig]), Err err) /\
   GetAdminClient X cluster c
   = (mkConnManager (conns c) (world c) (calls c ++ [EvReadConfig]), Err err) /\
   Connect X cluster c
   = (mkConnManager (conns c) (world c) (calls c ++ [EvReadConfig]), Err err)) /\
  (forall cl : Client,
     conns c !! cluster = Some cl -> GetClient X cluster c = (c, Ok cl)).
Proof.
  intros Hfail. split; [|split].
  - by rewrite GetConfig_run, Hfail.
  - intros Hmiss.
    rewrite Connect_run, (GetClient_miss _ _ _ Hmiss),
      (GetAdminClient_miss _ _ _ Hmiss), Hfail. done.
  - intros cl. apply GetClient_hit.
Qed.

(** *** What the methods leave alone *)

(** Lines 82-108 and 67-80: [GetConfig] has no use for the cache.  It
    never changes it and never looks at it: also for a name that is in the
    cache it calls the configuration loader, once, and it never calls
    [sarama.NewClient], [sarama.NewClusterAdminFromClient] or a broker; in
    one and the same world its result is the same whatever the cache
    holds.  [GetAvailableOffsets] never changes the cache either. *)
Theorem GetConfig_ignores_the_cache c cluster :
  conns (fst (GetConfig X cluster c)) = conns c /\
  calls (fst (GetConfig X cluster c)) = calls c ++ [EvReadConfig] /\
  (forall (m : gmap string Client) evs,
     snd (GetConfig X cluster (mkConnManager m (world c) evs))
     = snd (GetConfig X cluster c)) /\
  (forall (broker : Broker) (req : OffsetRequest),
     conns (fst (GetAvailableOffsets X broker cluster req c)) = conns c).
Proof.
  split; [|split; [|split]].
  - rewrite GetConfig_run. by destruct (ReadConfig X (world c) EmptyString).
  - rewrite GetConfig_run. by destruct (ReadConfig X (world c) EmptyString).
  - intros m evs. rewrite !GetConfig_run. simpl.
    by destruct (ReadConfig X (world c) EmptyString).
  - intros broker req. rewrite GetAvailableOffsets_run.
    destruct (Broker_GetAvailableOffsets X (world c) broker req) as [w1 [resp|e1]];
      simpl; [done|].
    destruct (ReadConfig X _ EmptyString) as [configTotal|err]; simpl; [|done].
    destruct (toSaramaConfig X _ _) as [cfg|err|]; simpl; [|done..].
    by destruct (Broker_GetAvailableOffsets X _ broker req) as [w4 r2].
Qed.

(** *** Connect *)

(** Lines 24-30: [Connect] is [GetAdminClient] without the handle: it
    leaves the manager as [GetAdminClient] leaves it, returns nil when
    [GetAdminClient] returns a handle, and the same error otherwise.  When
    it returns nil, the connection is in the cache under the name, and
    after any further calls [GetClient] returns it without any external
    call. *)
Theorem Connect_fills_the_cache c cluster c1 (o : outcome unit) :
  Connect X cluster c = (c1, o) ->
  c1 = fst (GetAdminClient X cluster c) /\
  (o = Ok tt <-> exists adm, snd (GetAdminClient X cluster c) = Ok adm) /\
  (forall err, o = Err err <-> snd (GetAdminClient X cluster c) = Err err) /\
  (o = Ok tt ->
   exists cl : Client,
     conns c1 !! cluster = Some cl /\
     forall ops : list (Op Broker OffsetRequest),
       GetClient X cluster (afterAll X ops c1) = (afterAll X ops c1, Ok cl)).
Proof.
  rewrite Connect_run. intros [= <- <-].
  destruct (GetAdminClient X cluster c) as [c1 oa] eqn:E. simpl.
  split; [done|]. split; [|split].
  - destruct oa; simpl; split; try done; eauto. all: by intros [? ?].
  - intros err. destruct oa; simpl; split; congruence.
  - intros Hok. destruct oa as [adm|err|]; simpl in Hok; try done.
    assert (exists cl : Client, conns c1 !! cluster = Some cl) as [cl Hcl].
    { destruct (conns c !! cluster) as [cl|] eqn:Hlook.
      - rewrite (GetAdminClient_hit _ _ _ _ Hlook) in E.
        destruct (NewClusterAdminFromClient X (world c) cl) as [w' r].
        injection E as <- _. by exists cl.
      - destruct (GetAdminClient_conns _ _ _ _ _ E)
          as [Hsame|(_ & client & ? & ? & ? & ? & ? & ? & ? & ? & Hins)].
        + rewrite (GetAdminClient_miss _ _ _ Hlook) in E. cbv zeta in E.
          unfold returned in E.
          repeat case_match; simplify_eq; simpl in *.
          all: eexists; apply lookup_insert_eq.
        + exists client. rewrite Hins. apply lookup_insert_eq. }
    exists cl. split; [done|]. intros ops.
    by apply GetClient_hit, afterAll_keeps_entries.
Qed.

(** *** Names and clusters *)

(** Lines 119-143 with 33-35: a name that no cluster has is unknown to
    [GetClient], which returns the not-found error; but once
    [GetAdminClient] has been called with that name and has returned a
    handle, the connection to the active cluster is in the cache under the
    name asked for, and [GetClient] with the same name and the same
    configuration returns that connection. *)
Theorem fallback_is_cached_under_the_name_asked_for c cluster
    (configTotal : config.Config) c1 (adm : ClusterAdmin) :
  ReadConfig X (world c) EmptyString = Success configTotal ->
  Forall (fun cx => config.Name cx <> cluster) (config.Clusters configTotal) ->
  conns c !! cluster = None ->
  GetAdminClient X cluster c = (c1, Ok adm) ->
  snd (GetClient X cluster c) = Err (notFound cluster) /\
  exists active cfg w' (cl : Client),
    ActiveCluster X configTotal = Some active /\
    toSaramaConfig X (world c) (Some active) = Ok cfg /\
    NewClient X (world c) (config.Brokers active) cfg = (w', Success cl) /\
    GetClient X cluster c1 = (c1, Ok cl).
Proof.
  intros Hcfg Hnone Hmiss Hadm. split.
  - by rewrite (GetClient_miss _ _ _ Hmiss), Hcfg, (rangeClusters_none _ _ Hnone).
  - rewrite (GetAdminClient_miss _ _ _ Hmiss), Hcfg in Hadm.
    rewrite (clusterOrActive_unknown _ _ _ (or_intror Hnone)) in Hadm.
    destruct (ActiveCluster X configTotal) as [active|] eqn:Hactive; [|done].
    destruct (toSaramaConfig X (world c) (Some active)) as [cfg|err|] eqn:Htr;
      [|done..].
    destruct (NewClient X (world c) (config.Brokers active) cfg)
      as [w' [cl|err]] eqn:Hdial; [|done].
    cbv zeta in Hadm.
    destruct (NewClusterAdminFromClient X w' cl) as [w'' r].
    injection Hadm as <- _.
    exists active, cfg, w', cl. split; [done|]. split; [done|]. split; [done|].
    apply GetClient_hit. simpl. apply lookup_insert_eq.
Qed.

(** Lines 88-100 and 119-131 with 41-46: for a name that is not empty and
    that some cluster has, the three methods agree on the cluster, the
    last one of that name: [GetConfig] returns its translation, and, the
    name not being in the cache, [GetAdminClient] leaves the cache as
    [GetClient] would. *)
Theorem known_name_resolves_alike c cluster (configTotal : config.Config)
    (before after : list config.Cluster) (cl : config.Cluster) :
  ReadConfig X (world c) EmptyString = Success configTotal ->
  cluster <> EmptyString ->
  config.Clusters configTotal = before ++ cl :: after ->
  config.Name cl = cluster ->
  Forall (fun cx => config.Name cx <> cluster) after ->
  snd (GetConfig X cluster c) = toSaramaConfig X (world c) (Some cl) /\
  (conns c !! cluster = None ->
   conns (fst (GetAdminClient X cluster c)) = conns (fst (GetClient X cluster c))).
Proof.
  intros Hcfg Hne Hsplit Hname Hafter.
  assert (Hcl : clusterOrActive X configTotal cluster = Some cl).
  { unfold clusterOrActive. apply String.eqb_neq in Hne. rewrite Hne, Hsplit.
    by rewrite (rangeClusters_last _ _ _ _ Hname Hafter). }
  split.
  - by rewrite GetConfig_run, Hcfg, Hcl.
  - intros Hmiss.
    rewrite (GetAdminClient_miss _ _ _ Hmiss), (GetClient_miss _ _ _ Hmiss).
    rewrite Hcfg, Hcl, Hsplit, (rangeClusters_last _ _ _ _ Hname Hafter).
    destruct (toSaramaConfig X (world c) (Some cl)) as [cfg|err|]; [|done..].
    destruct (NewClient X (world c) (config.Brokers cl) cfg)
      as [w' [client|err]]; [|done].
    cbv zeta. by destruct (NewClusterAdminFromClient X w' client).
Qed.

(** *** Invariants of the cache *)

Lemma count_app (k : Kind) (l1 l2 : list (Event Client Broker OffsetRequest)) :
  count k (l1 ++ l2) = count k l1 + count k l2.
Proof. unfold count. by rewrite filter_app, length_app. Qed.

Lemma GetClient_step c cluster :
  exists new,
    calls (fst (GetClient X cluster c)) = calls c ++ new /\
    (conns (fst (GetClient X cluster c)) = conns c
     \/ exists client : Client,
          conns c !! cluster = None /\
          conns (fst (GetClient X cluster c)) = <[cluster := client]> (conns c) /\
          count KNewClient new = 1).
Proof.
  destruct (conns c !! cluster) as [cl|] eqn:Hlook.
  - rewrite (GetClient_hit _ _ _ _ Hlook). exists []. simpl.
    split; [by rewrite app_nil_r | by left].
  - rewrite (GetClient_miss _ _ _ Hlook).
    repeat case_match; simpl; eexists; (split; [reflexivity|]);
      first [by left | right; by eexists].
Qed.

Lemma GetAdminClient_step c cluster :
  exists new,
    calls (fst (GetAdminClient X cluster c)) = calls c ++ new /\
    (conns (fst (GetAdminClient X cluster c)) = conns c
     \/ exists client : Client,
          conns c !! cluster = None /\
          conns (fst (GetAdminClient X cluster c))
          = <[cluster := client]> (conns c) /\
          count KNewClient new = 1).
Proof.
  destruct (conns c !! cluster) as [cl|] eqn:Hlook.
  - rewrite (GetAdminClient_hit _ _ _ _ Hlook).
    destruct (NewClusterAdminFromClient X (world c) cl) as [w' r]. simpl.
    eexists. split; [reflexivity | by left].
  - rewrite (GetAdminClient_miss _ _ _ Hlook).
    repeat case_match; simpl; eexists; (split; [reflexivity|]);
      first [by left | right; by eexists].
Qed.

Lemma after_step c (op : Op Broker OffsetRequest) :
  exists new,
    calls (after X op c) = calls c ++ new /\
    (conns (after X op c) = conns c
     \/ exists cluster (client : Client),
          cluster ∈ requested op /\
          conns c !! cluster = None /\
          conns (after X op c) = <[cluster := client]> (conns c) /\
          count KNewClient new = 1).
Proof.
  destruct op as [cluster|cluster|broker cluster req|cluster|cluster]; simpl.
  - rewrite Connect_run. simpl.
    destruct (GetAdminClient_step c cluster) as (new & Hcalls & [H|(cl & ? & ? & ?)]);
      exists new; (split; [done|]); [by left | right].
    exists cluster, cl. repeat split; try done. set_solver.
  - destruct (GetClient_step c cluster) as (new & Hcalls & [H|(cl & ? & ? & ?)]);
      exists new; (split; [done|]); [by left | right].
    exists cluster, cl. repeat split; try done. set_solver.
  - rewrite GetAvailableOffsets_run.
    destruct (Broker_GetAvailableOffsets X (world c) broker req) as [w1 [resp|e1]];
      simpl; [eexists; split; [reflexivity | by left] |].
    destruct (ReadConfig X _ EmptyString) as [configTotal|err]; simpl;
      [| eexists; split; [reflexivity | by left]].
    destruct (toSaramaConfig X _ _) as [cfg|err|]; simpl;
      [| eexists; split; [reflexivity | by left]..].
    destruct (Broker_GetAvailableOffsets X _ broker req) as [w4 r2]; simpl.
    eexists; split; [reflexivity | by left].
  - rewrite GetConfig_run.
    destruct (ReadConfig X (world c) EmptyString); simpl;
      eexists; (split; [reflexivity | by left]).
  - destruct (GetAdminClient_step c cluster) as (new & Hcalls & [H|(cl & ? & ? & ?)]);
      exists new; (split; [done|]); [by left | right].
    exists cluster, cl. repeat split; try done. set_solver.
Qed.

(** Lines 61 and 143 are the only writes to the cache: after any calls,
    the names in the cache are names that were in it before or that
    [GetClient], [GetAdminClient] or [Connect] was called with. *)
Theorem cached_names_were_asked_for (ops : list (Op Broker OffsetRequest)) c :
  dom (conns (afterAll X ops c)) ⊆ dom (conns c) ∪ ⋃ (requested <$> ops).
Proof.
  unfold afterAll. revert c.
  induction ops as [|op ops IH]; intros c; simpl; [apply union_subseteq_l|].
  etrans; [apply IH|].
  destruct (after_step c op) as (new & _ & [-> | (cl & client & Hin & _ & -> & _)]).
  - apply union_mono_l, union_subseteq_r.
  - rewrite dom_insert_L. intros x Hx.
    apply elem_of_union in Hx as [Hx|Hx];
      [apply elem_of_union in Hx as [Hx|Hx] |].
    + apply elem_of_singleton in Hx as ->.
      by apply elem_of_union_r, elem_of_union_l.
    + by apply elem_of_union_l.
    + by apply elem_of_union_r, elem_of_union_r.
Qed.

Lemma after_dials c (op : Op Broker OffsetRequest) :
  size (conns c) <= count KNewClient (calls c) ->
  size (conns (after X op c)) <= count KNewClient (calls (after X op c)).
Proof.
  intros Hinv.
  destruct (after_step c op)
    as (new & -> & [-> | (cl & client & _ & Hmiss & -> & Hone)]);
    rewrite count_app.
  - lia.
  - rewrite (map_size_insert_None _ _ _ Hmiss). lia.
Qed.

(** Starting from [NewConnManager], after any calls, the cache holds at
    most as many connections as [sarama.NewClient] was called: every
    connection in the cache was dialled by a call of its own. *)
Theorem cache_is_no_larger_than_dials (ops : list (Op Broker OffsetRequest))
    (w : Ext) :
  size (conns (afterAll X ops (NewConnManager w)))
  <= count KNewClient (calls (afterAll X ops (NewConnManager w))).
Proof.
  assert (G : forall c,
             size (conns c) <= count KNewClient (calls c) ->
             size (conns (afterAll X ops c))
             <= count KNewClient (calls (afterAll X ops c))).
  { unfold afterAll. induction ops as [|op ops IH]; intros c Hinv; simpl;
      [done|]. by apply IH, after_dials. }
  apply G. simpl. rewrite map_size_empty. unfold count. simpl. lia.
Qed.

End manager_more.

(** *** More of the connection manager, in the concrete world *)

Lemma rangeClusters_finds_the_last_witness :
  config.Clusters demo.configTotal = [demo.local; demo.prod] ++ demo.local2 :: [] /\
  rangeClusters (config.Clusters demo.configTotal) "local" = Some demo.local2.
Proof.
  split; [reflexivity|].
  apply (proj2 (rangeClusters_finds_the_last
                  (config.Clusters demo.configTotal) "local") demo.local2).
  exists [demo.local; demo.prod], []. repeat split. constructor.
Defined.

Lemma config_failure_is_returned_witness :
  ReadConfig demo.X (world demo.freshNoConfig) EmptyString
  = Failure (LibError "yaml: did not find expected key") /\
  GetAdminClient demo.X "local" demo.freshNoConfig
  = (mkConnManager ∅ demo.noConfig [EvReadConfig],
     Err (LibError "yaml: did not find expected key")) /\
  GetClient demo.X "local" demo.cachedNoConfig
  = (demo.cachedNoConfig, Ok ["127.0.0.1:9092"]).
Proof.
  split; [reflexivity | split].
  - exact (proj1 (proj2 (proj1 (proj2
      (config_failure_is_returned demo.X demo.freshNoConfig "local" _ eq_refl))
      eq_refl))).
  - exact (proj2 (proj2
      (config_failure_is_returned demo.X demo.cachedNoConfig "local" _ eq_refl))
      _ eq_refl).
Defined.

Lemma Connect_fills_the_cache_witness :
  Connect demo.X "local" demo.fresh = (demo.connected, Ok tt) /\
  exists cl,
    conns demo.connected !! "local" = Some cl /\
    GetClient demo.X "local" (afterAll demo.X demo.later demo.connected)
    = (afterAll demo.X demo.later demo.connected, Ok cl).
Proof.
  split; [reflexivity|].
  destruct (proj2 (proj2 (proj2
    (Connect_fills_the_cache demo.X demo.fresh "local" demo.connected (Ok tt)
       eq_refl))) eq_refl) as (cl & Hcl & Hlater).
  exists cl. split; [exact Hcl | exact (Hlater demo.later)].
Defined.

Lemma fallback_is_cached_under_the_name_asked_for_witness :
  snd (GetClient demo.X "nosuch" demo.fresh) = Err (notFound "nosuch") /\
  exists active cfg w' cl,
    ActiveCluster demo.X demo.configTotal = Some active /\
    toSaramaConfig demo.X (world demo.fresh) (Some active) = Ok cfg /\
    NewClient demo.X (world demo.fresh) (config.Brokers active) cfg
    = (w', Success cl) /\
    GetClient demo.X "nosuch" demo.afterFallback = (demo.afterFallback, Ok cl).
Proof.
  apply (fallback_is_cached_under_the_name_asked_for demo.X demo.fresh "nosuch"
           demo.configTotal demo.afterFallback (config.Brokers demo.prod)).
  - reflexivity.
  - repeat constructor; discriminate.
  - reflexivity.
  - reflexivity.
Defined.

Lemma known_name_resolves_alike_witness :
  snd (GetConfig demo.X "local" demo.fresh)
  = toSaramaConfig demo.X (world demo.fresh) (Some demo.local2) /\
  conns (fst (GetAdminClient demo.X "local" demo.fresh))
  = conns (fst (GetClient demo.X "local" demo.fresh)).
Proof.
  destruct (known_name_resolves_alike demo.X demo.fresh "local" demo.configTotal
              [demo.local; demo.prod] [] demo.local2)
    as [HC HA].
  - reflexivity.
  - discriminate.
  - reflexivity.
  - reflexivity.
  - constructor.
  - split; [exact HC | exact (HA eq_refl)].
Defined.

(** ** Panics *)
Section panics.

Context {Ext Client ClusterAdmin Broker OffsetRequest OffsetResponse : Type}.
Variable X : Externals Ext Client ClusterAdmin Broker OffsetRequest OffsetResponse.

Implicit Types c : @ConnManager Ext Client Broker OffsetRequest.

(** Line 223, in full: on a record, [toSaramaConfig] panics exactly when
    the security protocol is SASL_SSL, there is no SASL section, and none
    of the errors of the earlier lines is returned first. *)
Theorem toSaramaConfig_panics_iff (w : Ext) (cluster : config.Cluster) :
  toSaramaConfig X w (Some cluster) = Panic
  <-> (failsAsWritten X w cluster = false /\
       config.SecurityProtocol cluster = "SASL_SSL" /\
       config.SASL_ cluster = None).
Proof.
  pose proof (toSaramaConfig_outcome X w cluster) as H.
  destruct (toSaramaConfig X w (Some cluster)) as [cfg|err|].
  - split; [done|]. intros (_ & Hp & Hs). destruct H as [_ H].
    destruct (H Hp) as [sasl Hsasl]. congruence.
  - split; [done|]. intros (Hf & _). congruence.
  - by split.
Qed.

(** Lines 98-102 and 129-133: [cl] is passed to [toSaramaConfig] without a
    nil check.  When the name is empty or the name of no cluster and the
    configuration has no active cluster, [GetConfig], and for a name that
    is not in the cache [GetAdminClient] and [Connect], panic after having
    read the configuration; nothing is dialled and the cache stays as it
    is. *)
Theorem no_active_cluster_panics c (cluster : string)
    (configTotal : config.Config) :
  ReadConfig X (world c) EmptyString = Success configTotal ->
  cluster = EmptyString
  \/ Forall (fun cx => config.Name cx <> cluster) (config.Clusters configTotal) ->
  ActiveCluster X configTotal = None ->
  GetConfig X cluster c
  = (mkConnManager (conns c) (world c) (calls c ++ [EvReadConfig]), Panic) /\
  (conns c !! cluster = None ->
   GetAdminClient X cluster c
   = (mkConnManager (conns c) (world c) (calls c ++ [EvReadConfig]), Panic) /\
   Connect X cluster c
   = (mkConnManager (conns c) (world c) (calls c ++ [EvReadConfig]), Panic)).
Proof.
  intros Hcfg Hunknown Hnil. split.
  - by rewrite GetConfig_run, Hcfg, clusterOrActive_unknown, Hnil.
  - intros Hmiss.
    by rewrite Connect_run, (GetAdminClient_miss _ _ _ Hmiss), Hcfg,
      clusterOrActive_unknown, Hnil.
Qed.

End panics.

(** *** Panics in the concrete world *)

Lemma toSaramaConfig_panics_iff_witness :
  (failsAsWritten demo.X demo.w0 demo.bare = false /\
   config.SecurityProtocol demo.bare = "SASL_SSL" /\
   config.SASL_ demo.bare = None) /\
  toSaramaConfig demo.X demo.w0 (Some demo.bare) = Panic.
Proof.
  assert (H : failsAsWritten demo.X demo.w0 demo.bare = false /\
              config.SecurityProtocol demo.bare = "SASL_SSL" /\
              config.SASL_ demo.bare = None)
    by (repeat split; reflexivity).
  split; [exact H|].
  exact (proj2 (toSaramaConfig_panics_iff demo.X demo.w0 demo.bare) H).
Defined.

Lemma no_active_cluster_panics_witness :
  ReadConfig demo.X (world demo.freshEmpty) EmptyString
  = Success (config.mkConfig EmptyString []) /\
  ActiveCluster demo.X (config.mkConfig EmptyString []) = None /\
  GetConfig demo.X "local" demo.freshEmpty
  = (mkConnManager ∅ demo.wEmpty [EvReadConfig], Panic) /\
  Connect demo.X "local" demo.freshEmpty
  = (mkConnManager ∅ demo.wEmpty [EvReadConfig], Panic).
Proof.
  split; [reflexivity | split; [reflexivity|]].
  destruct (no_active_cluster_panics demo.X demo.freshEmpty "local"
              (config.mkConfig EmptyString []) eq_refl
              (or_intror (List.Forall_nil _)) eq_refl) as [HC HA].
  split; [exact HC | exact (proj2 (HA eq_refl))].
Defined.
